(** * core-execute: the action lifecycle engine of [actionlib/action.py]

    A shallow embedding of [BaseAction] (status state machine, blackboard
    context, lifecycle-hook dispatcher, status propagation adapter and the
    error-trapping [execute]/[check] wrappers), followed by the properties
    of the engine that the specification states. *)

From stdpp Require Import gmap strings list.
From Stdlib Require Import ZArith Ascii String DecimalString.

Open Scope string_scope.

#[local] Set Warnings "-register-all".

(** ** Python values and the string primitives used by [action.py] *)

Module Py.

(** The values the engine meets behind [Any]: what a parsed action
    definition or a context entry can hold. Dictionaries are keyed by
    strings and only ever read here, so they are association lists whose
    first binding of a key is the one that counts. *)
Inductive value : Type :=
| VNone
| VBool (b : bool)
| VInt (z : Z)
| VStr (s : string)
| VList (l : list value)
| VDict (d : list (string * value)).

Abbreviation dict := (list (string * value)).

(** [bool(v)]: what [if v:] tests. *)
Definition truthy (v : value) : bool :=
  match v with
  | VNone => false
  | VBool b => b
  | VInt z => negb (z =? 0)%Z
  | VStr s => negb (s =? EmptyString)
  | VList l => match l with [] => false | _ => true end
  | VDict d => match d with [] => false | _ => true end
  end.

(** [v == s] for a [str] on the right-hand side: every comparison the
    engine makes has a string constant or a [str] argument on one side. *)
Definition eq_str (v : value) (s : string) : bool :=
  match v with
  | VStr s' => s' =? s
  | _ => false
  end.

(** [d.get(k)] on a dictionary, [None] when the key is missing. *)
Fixpoint dict_lookup (k : string) (d : dict) : option value :=
  match d with
  | [] => None
  | (k', v) :: d' => if k' =? k then Some v else dict_lookup k d'
  end.

(** [d.get(k, default)]. *)
Definition dict_get (k : string) (default : value) (d : dict) : value :=
  match dict_lookup k d with
  | Some v => v
  | None => default
  end.

(** A message built with [str.format]: the template and its arguments
    (the text of [str(v)] for an arbitrary value is never needed). *)
Inductive message : Type :=
| Msg (template : string) (args : list value).

(** An exception object: the name of its class, whether that class
    derives from [Exception] (what an [except Exception] clause tests;
    [KeyboardInterrupt], [SystemExit] and [GeneratorExit] do not), and
    the message it was built with. *)
Record exn : Type := mk_exn {
  exc_class : string;
  exc_is_Exception : bool;
  exc_msg : message;
}.

Definition KeyError (m : message) : exn := mk_exn "KeyError" true m.
Definition TypeError (m : message) : exn := mk_exn "TypeError" true m.
Definition Exception (m : message) : exn := mk_exn "Exception" true m.
Definition NotImplementedError (m : message) : exn :=
  mk_exn "NotImplementedError" true m.

(** The name Python prints for the type of a value in a [TypeError]. *)
Definition type_name (v : value) : string :=
  match v with
  | VNone => "NoneType"
  | VBool _ => "bool"
  | VInt _ => "int"
  | VStr _ => "str"
  | VList _ => "list"
  | VDict _ => "dict"
  end.

(** [s.lower()] for the ASCII letters (no other character lowers to one
    of the letters of ["true"]). *)
Definition lower_ascii (c : ascii) : ascii :=
  let n := nat_of_ascii c in
  if (65 <=? n)%nat && (n <=? 90)%nat then ascii_of_nat (n + 32) else c.

Fixpoint lower (s : string) : string :=
  match s with
  | EmptyString => EmptyString
  | String c s' => String (lower_ascii c) (lower s')
  end.

(** [p in s] for two strings: [p] occurs in [s]. *)
Fixpoint is_substring (p s : string) : bool :=
  String.prefix p s ||
  match s with
  | EmptyString => false
  | String _ s' => is_substring p s'
  end.

(** [s.split(sep)] for a one-character separator: the first field and
    the remaining ones (the result of [split] is never empty). *)
Fixpoint split_fields (sep : ascii) (s : string) : string * list string :=
  match s with
  | EmptyString => (EmptyString, [])
  | String c s' =>
      let '(h, t) := split_fields sep s' in
      if Ascii.eqb c sep then (EmptyString, h :: t) else (String c h, t)
  end.

Definition split (sep : ascii) (s : string) : list string :=
  let '(h, t) := split_fields sep s in h :: t.

(** [sep.join(l)]. *)
Fixpoint join (sep : string) (l : list string) : string :=
  match l with
  | [] => EmptyString
  | x :: xs =>
      match xs with
      | [] => x
      | _ => x ++ sep ++ join sep xs
      end
  end.

(** [s.split(sep, 1)]: the part before the first separator and, when
    there is a separator, the part after it. *)
Fixpoint split_once (sep : ascii) (s : string) : string * option string :=
  match s with
  | EmptyString => (EmptyString, None)
  | String c s' =>
      if Ascii.eqb c sep then (EmptyString, Some s')
      else let '(h, t) := split_once sep s' in (String c h, t)
  end.

(** [s.split(sep, 1)[0]] and [s.split(sep, 1)[-1]]. *)
Definition split_once_first (sep : ascii) (s : string) : string :=
  fst (split_once sep s).

Definition split_once_last (sep : ascii) (s : string) : string :=
  match split_once sep s with
  | (_, Some t) => t
  | (h, None) => h
  end.

(** [s.replace(old, new)]: the occurrences of [old] are replaced from
    left to right without overlap; [skip] counts the characters of an
    occurrence that has already been replaced. An empty [old] matches
    before every character and at the end. *)
Fixpoint replace_go (old new : string) (skip : nat) (s : string) : string :=
  match s with
  | EmptyString => EmptyString
  | String c s' =>
      match skip with
      | S k => replace_go old new k s'
      | O =>
          if String.prefix old s
          then new ++ replace_go old new (String.length old - 1) s'
          else String c (replace_go old new 0 s')
      end
  end.

Fixpoint replace_empty (new s : string) : string :=
  match s with
  | EmptyString => new
  | String c s' => new ++ String c (replace_empty new s')
  end.

Definition replace (old new s : string) : string :=
  match old with
  | EmptyString => replace_empty new s
  | _ => replace_go old new 0 s
  end.

(** [os.path.split(p)[1]] on a POSIX path: what follows the last [/]. *)
Definition basename (p : string) : string :=
  List.last (split "/" p) EmptyString.

(** [str(n)] for an integer. *)
Definition str_of_int (n : Z) : string :=
  NilZero.string_of_int (Z.to_int n).

(** [x in container] with a [str] on the left: key membership for a
    dictionary, element equality for a list, substring for a string, a
    [TypeError] for a value that is not iterable. *)
Definition py_in (x : string) (container : value) : exn + bool :=
  match container with
  | VDict d => inr (bool_decide (is_Some (dict_lookup x d)))
  | VList l => inr (existsb (fun v => eq_str v x) l)
  | VStr s => inr (is_substring x s)
  | v => inl (TypeError (Msg "argument of type '{}' is not iterable"
                           [VStr (type_name v)]))
  end.

(** [container[key]] with a [str] key: defined on dictionaries only. *)
Definition py_getitem (container : value) (key : string) : exn + value :=
  match container with
  | VDict d =>
      match dict_lookup key d with
      | Some v => inr v
      | None => inl (KeyError (Msg "{}" [VStr key]))
      end
  | VList _ =>
      inl (TypeError (Msg "list indices must be integers or slices, not str" []))
  | VStr _ =>
      inl (TypeError (Msg "string indices must be integers, not 'str'" []))
  | v =>
      inl (TypeError (Msg "'{}' object is not subscriptable"
                        [VStr (type_name v)]))
  end.

End Py.

Import Py.

(** ** The collaborators and the runtime the engine runs against *)

(** What [action.py] imports and does not define: the template renderer
    ([core_renderer.Jinja2Renderer.render_string], a string-in/string-out
    evaluator that may raise), the status-tracking client
    ([core_db.dbhelper.update_status] and [update_item], which act on a
    store of their own and may raise), the status constant
    [RELEASE_IN_PROGRESS] of [core_framework.status], and what the Python
    runtime reports about an exception in flight: [str(e)], the head of
    its traceback as [sys.exc_info()] gives it (code file name and line
    number, [None] when there is no traceback) and the text of
    [traceback.format_exception]. An omitted [message=] or [details=]
    keyword of [update_status] is [None]. *)
Class Runtime : Type := {
  db : Type;
  render_string : value -> gmap string value -> exn + string;
  update_status :
    string -> string -> option string -> option value -> db -> option exn * db;
  update_item : string -> string -> db -> option exn * db;
  RELEASE_IN_PROGRESS : string;
  exc_str : exn -> string;
  exc_traceback : exn -> option (string * Z);
  format_exception : exn -> string;
}.

(** ** Observable effects *)

Inductive log_level : Type := Debug | Warn.

Inductive log_arg : Type :=
| LVal (v : value)
| LExc (e : exn).

(** What a call leaves behind besides the context: the calls to
    [core_logging], every write of a context key, every lifecycle hook
    that [__execute_lifecycle_hook] is entered for, and every call made to
    the status-tracking client, in the order they happen. *)
Inductive event : Type :=
| LogSetIdentity (identity : string)
| LogResetIdentity
| Log (level : log_level) (template : string) (args : list log_arg)
| ContextSet (key : string) (v : value)
| HookFired (ev : string) (hook : dict)
| UpdateStatus (prn status : string) (message : option string)
               (details : option value)
| UpdateItem (prn released_build_prn : string).

Section Engine.

Context `{RT : Runtime}.

(** The state a call runs in: the dictionary [self.context] is bound
    to, the store of the status-tracking client, and the effects so far
    (latest last). *)
Record World : Type := mk_World {
  context : gmap string value;
  store : db;
  trace : list event;
}.

(** How a call ends: it returns a value, or an exception leaves it. *)
Inductive Outcome (A : Type) : Type :=
| Returns (a : A) (w : World)
| Raises (e : exn) (w : World).

#[global] Arguments Returns {A} a w.
#[global] Arguments Raises {A} e w.

Definition M (A : Type) : Type := World -> Outcome A.

Definition ret {A : Type} (a : A) : M A := fun w => Returns a w.

Definition bind {A B : Type} (m : M A) (k : A -> M B) : M B :=
  fun w =>
    match m w with
    | Returns a w' => k a w'
    | Raises e w' => Raises e w'
    end.

Definition raise {A : Type} (e : exn) : M A := fun w => Raises e w.

(** The result of a fallible primitive, raised when it is an error. *)
Definition lift {A : Type} (r : exn + A) : M A :=
  match r with
  | inl e => raise e
  | inr a => ret a
  end.

Definition get_context_dict : M (gmap string value) :=
  fun w => Returns (context w) w.

Definition emit (ev : event) : M unit :=
  fun w => Returns tt (mk_World (context w) (store w) (trace w ++ [ev])).

(** [try: body / except Exception as e: handler e / finally: final].
    Only an exception that derives from [Exception] reaches the handler;
    [final] runs on every way out and what left the [try]/[except] part
    goes on afterwards, unless [final] raises itself. *)
Definition try_except_finally {A : Type}
    (body : M A) (handler : exn -> M A) (final : M unit) : M A :=
  fun w =>
    let o :=
      match body w with
      | Returns a w1 => Returns a w1
      | Raises e w1 =>
          if exc_is_Exception e then handler e w1 else Raises e w1
      end in
    match o with
    | Returns a w2 =>
        match final w2 with
        | Returns _ w3 => Returns a w3
        | Raises e' w3 => Raises e' w3
        end
    | Raises e w2 =>
        match final w2 with
        | Returns _ w3 => Raises e w3
        | Raises e' w3 => Raises e' w3
        end
    end.

(** [for x in l: body x]. *)
Fixpoint for_each {A : Type} (l : list A) (body : A -> M unit) : M unit :=
  match l with
  | [] => ret tt
  | x :: l' => bind (body x) (fun _ => for_each l' body)
  end.

End Engine.

Declare Scope action_scope.
Delimit Scope action_scope with action.
Notation "'let*' x := m 'in' k" := (bind m (fun x => k))
  (at level 10, x name, m at level 100, k at level 200) : action_scope.
Notation "m ;;; k" := (bind m (fun _ => k))
  (at level 100, k at level 200, right associativity) : action_scope.
Open Scope action_scope.

(** ** Constants of [action.py] *)

Definition ACT_STATUS_HOOOK : string := "StatusHook".

Definition STATUS_CODE : string := "StatusCode".
Definition STATUS_REASON : string := "StatusReason".

Definition LC_TYPE_STATUS : string := "status".
Definition LC_HOOK_PENDING : string := "Pending".
Definition LC_HOOK_FAILED : string := "Failed".
Definition LC_HOOK_RUNNING : string := "Running".
Definition LC_HOOK_COMPLETE : string := "Complete".

(** The default [__get_context] takes for "no default given". *)
Definition NO_DEFAULT : string := "_!NO!DEFAULT!PROVIDED!_".

Definition newline : string := String "010"%char EmptyString.

Module StatusCode.
Inductive t : Type := PENDING | RUNNING | COMPLETE | FAILED.

Definition value (c : t) : string :=
  match c with
  | PENDING => "pending"
  | RUNNING => "running"
  | COMPLETE => "complete"
  | FAILED => "failed"
  end.
End StatusCode.

(** ** Action definitions and [BaseAction.__init__] *)

Record ActionDefinition : Type := {
  Label : string;
  Type_ : string;
  Condition : string;
  Before : list string;
  After : list string;
  DependsOn : list string;
  Params : value;
  LifecycleHooks : list dict;
  SaveOutputs : bool;
}.

(** The attributes [__init__] sets and no method of the engine assigns
    again. [self.context] is the [context] of the world, [self.renderer]
    the renderer of the runtime. *)
Record BaseAction : Type := {
  label : string;
  action_name : string;
  output_namespace : option string;
  state_namespace : string;
  type_ : string;
  condition : string;
  before : list string;
  after : list string;
  params : value;
  lifecycle_hooks : list dict;
}.

Definition BaseAction_init (definition : ActionDefinition) : BaseAction := {|
  label := Label definition;
  action_name := split_once_last "/" (Label definition);
  output_namespace :=
    if SaveOutputs definition
    then Some (replace ":action" ":output"
                 (split_once_first "/" (Label definition)))
    else None;
  state_namespace := replace ":action/" ":var/" (Label definition);
  type_ := Type_ definition;
  condition := Condition definition;
  before := Before definition;
  after := After definition ++ DependsOn definition;
  params := Params definition;
  lifecycle_hooks := LifecycleHooks definition;
|}.

(** ** The engine: [BaseAction] *)

Section BaseActionMethods.

Context `{RT : Runtime}.

(** The capability interface a concrete action implements by overriding
    the five methods of [BaseAction]. A body runs against the same world
    as the engine and may call the engine's setters and helpers. *)
Class ConcreteAction : Type := {
  _execute : BaseAction -> M unit;
  _check : BaseAction -> M unit;
  _resolve : BaseAction -> M unit;
  _cancel : BaseAction -> M unit;
  _unexecute : BaseAction -> M unit;
}.

(** [len(d) != 0], the truth value of a dictionary. *)
Definition dict_truthy (ctx : gmap string value) : bool :=
  negb (size ctx =? 0)%nat.

Definition str_truthy (s : string) : bool := negb (s =? EmptyString).

Definition log_debug (template : string) (args : list log_arg) : M unit :=
  emit (Log Debug template args).

Definition log_warn (template : string) (args : list log_arg) : M unit :=
  emit (Log Warn template args).

(** *** The blackboard context *)

Definition __get_context (self : BaseAction) (prn name : string)
    (default : value) : M value :=
  let key := prn ++ "/" ++ name in
  let* ctx := get_context_dict in
  match (if dict_truthy ctx then ctx !! key else None) with
  | Some v => ret v
  | None =>
      if eq_str default NO_DEFAULT
      then raise (KeyError
             (Msg "Key '{}' is not in the context and no default was provided"
                  [VStr name]))
      else ret default
  end.

(** When the dictionary is empty, [self.context] is bound to a new
    dictionary holding the one key; otherwise the key is stored in the
    dictionary it is bound to. Either way the dictionary [self.context]
    names afterwards is the old one with the key set. *)
Definition __set_context (self : BaseAction) (prn name : string)
    (v : value) : M unit :=
  fun w =>
    let key := prn ++ "/" ++ name in
    let ctx :=
      if negb (dict_truthy (context w))
      then {[ key := v ]}
      else <[ key := v ]> (context w) in
    Returns tt (mk_World ctx (store w) (trace w ++ [ContextSet key v])).

Definition __get_status_code (self : BaseAction) : M value :=
  __get_context self (label self) STATUS_CODE
    (VStr (StatusCode.value StatusCode.PENDING)).

Definition __get_status_reason (self : BaseAction) : M value :=
  __get_context self (label self) STATUS_REASON VNone.

Definition is_init (self : BaseAction) : M bool :=
  let* c := __get_status_code self in
  ret (eq_str c (StatusCode.value StatusCode.PENDING)).

Definition is_failed (self : BaseAction) : M bool :=
  let* c := __get_status_code self in
  ret (eq_str c (StatusCode.value StatusCode.FAILED)).

Definition is_running (self : BaseAction) : M bool :=
  let* c := __get_status_code self in
  ret (eq_str c (StatusCode.value StatusCode.RUNNING)).

Definition is_complete (self : BaseAction) : M bool :=
  let* c := __get_status_code self in
  ret (eq_str c (StatusCode.value StatusCode.COMPLETE)).

(** *** Lifecycle hooks *)

(** [hook["Parameters"]["On<event>"][field]] when both keys are there,
    [None] otherwise: the body shared by [__get_status_parameter] and
    [__get_message_parameter]. *)
Definition on_event_parameter (field event : string) (hook : dict)
    : exn + value :=
  let key := "On" ++ event in
  let parms := dict_get "Parameters" (VDict []) hook in
  match py_in key parms with
  | inl e => inl e
  | inr false => inr VNone
  | inr true =>
      match py_getitem parms key with
      | inl e => inl e
      | inr action =>
          match py_in field action with
          | inl e => inl e
          | inr false => inr VNone
          | inr true => py_getitem action field
          end
      end
  end.

Definition __get_status_parameter (event : string) (hook : dict)
    : exn + value :=
  on_event_parameter "Status" event hook.

Definition __get_message_parameter (event : string) (hook : dict)
    : exn + value :=
  on_event_parameter "Message" event hook.

(** [hook.get("Parameters", hook)[field]] when the key is there, [None]
    otherwise: the body shared by [__get_idenity_parameter] and
    [__get_details_parameter], which do not use [event]. *)
Definition root_parameter (field : string) (hook : dict) : exn + value :=
  let parms := dict_get "Parameters" (VDict hook) hook in
  match py_in field parms with
  | inl e => inl e
  | inr false => inr VNone
  | inr true => py_getitem parms field
  end.

Definition __get_idenity_parameter (event : string) (hook : dict)
    : exn + value :=
  root_parameter "Identity" hook.

Definition __get_details_parameter (event : string) (hook : dict)
    : exn + value :=
  root_parameter "Details" hook.

(** *** Status propagation *)

Definition call_update_status (prn status : string)
    (message : option string) (details : option value) : M unit :=
  emit (UpdateStatus prn status message details) ;;;
  fun w =>
    match update_status prn status message details (store w) with
    | (None, d) => Returns tt (mk_World (context w) d (trace w))
    | (Some e, d) => Raises e (mk_World (context w) d (trace w))
    end.

Definition call_update_item (prn released_build_prn : string) : M unit :=
  emit (UpdateItem prn released_build_prn) ;;;
  fun w =>
    match update_item prn released_build_prn (store w) with
    | (None, d) => Returns tt (mk_World (context w) d (trace w))
    | (Some e, d) => Raises e (mk_World (context w) d (trace w))
    end.

(** The [try] block of [__update_item_status]. *)
Definition __update_item_status_try (identity status message : string)
    (details : value) : M unit :=
  emit (LogSetIdentity identity) ;;;
  let prn_sections := split ":" identity in
  (if (List.length prn_sections =? 5)%nat then
     let build_prn := join ":" (firstn 5 prn_sections) in
     call_update_status build_prn status (Some message) (Some details) ;;;
     if status =? RELEASE_IN_PROGRESS then
       let branch_prn := join ":" (firstn 4 prn_sections) in
       call_update_item branch_prn build_prn
     else ret tt
   else ret tt) ;;;
  (if (List.length prn_sections =? 6)%nat then
     let component_prn := join ":" (firstn 6 prn_sections) in
     call_update_status component_prn status (Some message)
       (Some details) ;;;
     if is_substring "_FAILED" status then
       let build_prn := join ":" (firstn 5 prn_sections) in
       call_update_status build_prn status None None
     else ret tt
   else ret tt).

Definition __update_item_status (self : BaseAction)
    (identity status message : string) (details : value) : M unit :=
  try_except_finally
    (__update_item_status_try identity status message details)
    (fun e => log_warn "Failed to update status via API - {}" [LExc e])
    (emit LogResetIdentity).

(** [if v: v = self.renderer.render_string(v, self.context)]. What [v]
    is afterwards is either the rendered [str] or the value left as it
    was because it is falsy; only its truth value and, when true, its
    text are used from then on, so the falsy case is [None]. *)
Definition render_if_truthy (v : value) : M (option string) :=
  if truthy v then
    let* ctx := get_context_dict in
    let* s := lift (render_string v ctx) in
    ret (Some s)
  else ret None.

Definition opt_truthy (o : option string) : bool :=
  match o with
  | Some s => str_truthy s
  | None => false
  end.

(** The text of a parameter that is true, hence a rendered [str]. *)
Definition text (o : option string) : string := default EmptyString o.

Definition __execute_status_hook (self : BaseAction) (event : string)
    (hook : dict) (reason : string) : M unit :=
  let* status := lift (__get_status_parameter event hook) in
  let* message := lift (__get_message_parameter event hook) in
  let* identity := lift (__get_idenity_parameter event hook) in
  let* details := lift (__get_details_parameter event hook) in
  let* status := render_if_truthy status in
  let* identity := render_if_truthy identity in
  let* message := render_if_truthy message in
  if negb (opt_truthy status) then
    log_warn
      "Internal - status hook was executed, but no status was defined for event"
      [LVal (VDict [(ACT_STATUS_HOOOK, VDict hook)])]
  else if negb (opt_truthy identity) then
    log_warn
      "Internal - status hook was executed, but no identity was defined"
      [LVal (VDict [(ACT_STATUS_HOOOK, VDict hook)])]
  else
    let message :=
      if str_truthy reason then
        Some (if opt_truthy message then text message ++ " - " ++ reason
              else reason)
      else message in
    let message :=
      if negb (opt_truthy message) then
        (if str_truthy reason then reason else EmptyString)
      else text message in
    __update_item_status self (text identity) (text status) message details.

Definition __execute_lifecycle_hook (self : BaseAction) (event : string)
    (hook_type : value) (hook : dict) (reason : string) : M unit :=
  emit (HookFired event hook) ;;;
  if eq_str hook_type LC_TYPE_STATUS then
    __execute_status_hook self event hook reason
  else
    raise (Exception (Msg "Unsupported hook type {}" [hook_type])).

(** [[h for h in hooks if event in h.get("States", [])]]: the whole
    list is built, or the first failing membership test raises, before
    any hook runs. *)
Fixpoint event_hooks (event : string) (hooks : list dict)
    : exn + list dict :=
  match hooks with
  | [] => inr []
  | h :: hooks' =>
      match py_in event (dict_get "States" (VList []) h) with
      | inl e => inl e
      | inr b =>
          match event_hooks event hooks' with
          | inl e => inl e
          | inr l => inr (if b then h :: l else l)
          end
      end
  end.

Definition __execute_lifecycle_hooks (self : BaseAction) (event : string)
    (reason : string) : M unit :=
  let* hooks := lift (event_hooks event (lifecycle_hooks self)) in
  for_each hooks (fun event_hook =>
    let* hook_type := lift (py_getitem (VDict event_hook) "Type") in
    __execute_lifecycle_hook self event hook_type event_hook reason).

(** *** The status state machine *)

Definition set_failed (self : BaseAction) (reason : string) : M unit :=
  let* failed := is_failed self in
  let* same :=
    if failed then
      let* stored := __get_status_reason self in
      ret (eq_str stored reason)
    else ret false in
  if same then ret tt
  else
    log_debug "Action has failed - {}" [LVal (VStr reason)] ;;;
    __execute_lifecycle_hooks self LC_HOOK_FAILED reason ;;;
    __set_context self (label self) STATUS_CODE
      (VStr (StatusCode.value StatusCode.FAILED)) ;;;
    __set_context self (label self) STATUS_REASON (VStr reason).

Definition set_running (self : BaseAction) (reason : string) : M unit :=
  let* running := is_running self in
  let* same :=
    if running then
      let* stored := __get_status_reason self in
      ret (eq_str stored reason)
    else ret false in
  if same then ret tt
  else
    log_debug (if str_truthy reason then reason else "Action is running")
      [] ;;;
    __execute_lifecycle_hooks self LC_HOOK_RUNNING reason ;;;
    __set_context self (label self) STATUS_CODE
      (VStr (StatusCode.value StatusCode.RUNNING)) ;;;
    __set_context self (label self) STATUS_REASON (VStr reason).

Definition set_complete (self : BaseAction) (reason : string) : M unit :=
  let* complete := is_complete self in
  let* same :=
    if complete then
      let* stored := __get_status_reason self in
      ret (eq_str stored reason)
    else ret false in
  if same then ret tt
  else
    log_debug "Action is complete - {}" [LVal (VStr reason)] ;;;
    __execute_lifecycle_hooks self LC_HOOK_COMPLETE reason ;;;
    __set_context self (label self) STATUS_CODE
      (VStr (StatusCode.value StatusCode.COMPLETE)) ;;;
    __set_context self (label self) STATUS_REASON (VStr reason).

Definition set_skipped (self : BaseAction) (reason : string) : M unit :=
  let* complete := is_complete self in
  let* same :=
    if complete then
      let* stored := __get_status_reason self in
      ret (eq_str stored reason)
    else ret false in
  if same then ret tt
  else
    log_debug "Action has been skipped - {}" [LVal (VStr reason)] ;;;
    __set_context self (label self) STATUS_CODE
      (VStr (StatusCode.value StatusCode.COMPLETE)) ;;;
    __set_context self (label self) STATUS_REASON (VStr reason).

(** *** State and output helpers *)

Definition set_output (self : BaseAction) (name : string) (v : value)
    : M unit :=
  match output_namespace self with
  | Some ns =>
      log_debug "Setting output '{}/{}' = '{}'"
        [LVal (VStr ns); LVal (VStr name); LVal v] ;;;
      __set_context self ns name v
  | None => ret tt
  end ;;;
  __set_context self (state_namespace self) name v.

Definition get_output (self : BaseAction) (name : string) : M value :=
  match output_namespace self with
  | None => ret VNone
  | Some ns => __get_context self ns name (VStr NO_DEFAULT)
  end.

Definition set_state (self : BaseAction) (name : string) (v : value)
    : M unit :=
  __set_context self (state_namespace self) name v.

Definition get_state (self : BaseAction) (name : string) : M value :=
  __get_context self (state_namespace self) name (VStr NO_DEFAULT).

(** *** The error-trapping wrappers *)

(** The reason [execute] and [check] hand to [set_failed] for a trapped
    exception. *)
Definition internal_error_reason (e : exn) : string :=
  let '(fname, lineno) :=
    match exc_traceback e with
    | Some (filename, line) => (basename filename, line)
    | None => ("Unknown", (-1)%Z)
    end in
  "Internal error " ++ exc_class e ++ " in " ++ fname ++ " at "
    ++ str_of_int lineno ++ " - " ++ exc_str e ++ newline
    ++ "Traceback:" ++ newline ++ format_exception e.

Definition execute `{CA : ConcreteAction} (self : BaseAction) : M unit :=
  try_except_finally
    (emit (LogSetIdentity (label self)) ;;;
     let* ctx := get_context_dict in
     let* condition_result :=
       lift (render_string (VStr ("{{ " ++ condition self ++ " }}")) ctx) in
     if lower condition_result =? "true" then
       _resolve self ;;;
       _execute self
     else
       set_skipped self
         ("Condition evaluated to '" ++ condition_result ++ "'"))
    (fun e => set_failed self (internal_error_reason e))
    (emit LogResetIdentity).

Definition check `{CA : ConcreteAction} (self : BaseAction) : M unit :=
  try_except_finally
    (emit (LogSetIdentity (label self)) ;;;
     log_debug "Checking action for {}" [LVal (VStr (label self))] ;;;
     _resolve self ;;;
     _check self)
    (fun e => set_failed self (internal_error_reason e))
    (emit LogResetIdentity).

(** ** [BaseAction] itself and the concrete action [NoOpAction] *)

Definition must_implement (self : BaseAction) : M unit :=
  raise (NotImplementedError (Msg "Must implement in subclass" [])).

(** An action that overrides nothing. *)
Definition AbstractAction : ConcreteAction := {|
  _execute := must_implement;
  _check := must_implement;
  _resolve := must_implement;
  _cancel := must_implement;
  _unexecute := must_implement;
|}.

(** [actions/system/no_op.py]. *)
Definition NoOpAction : ConcreteAction := {|
  _execute := fun self => set_complete self "No operation required";
  _check := fun self => set_complete self "No operation required";
  _unexecute := fun _ => ret tt;
  _cancel := fun _ => ret tt;
  _resolve := fun _ => ret tt;
|}.

End BaseActionMethods.

(** ** Concrete collaborators and actions to run the engine on *)

Module Demo.

(** A renderer that knows the two boolean literals, leaves text without
    an expression as it is, and rejects everything else. *)
Definition render (v : value) (ctx : gmap string value) : exn + string :=
  match v with
  | VStr s =>
      if s =? "{{ True }}" then inr "True"
      else if s =? "{{ False }}" then inr "False"
      else if is_substring "{{" s
           then inl (mk_exn "TemplateSyntaxError" true (Msg s []))
           else inr s
  | _ => inl (TypeError (Msg "Can't compile non template nodes" []))
  end.

(** A status-tracking client that records the pairs of identity and
    status it accepted, or, when [fail] holds an exception, raises it on
    every call. *)
Definition runtime (fail : option exn) : Runtime := {|
  db := list (string * string);
  render_string := render;
  update_status := fun prn status _ _ d =>
    match fail with
    | Some e => (Some e, d)
    | None => (None, (d ++ [(prn, status)])%list)
    end;
  update_item := fun _ _ d => (fail, d);
  RELEASE_IN_PROGRESS := "RELEASE_IN_PROGRESS";
  exc_str := fun e => match exc_msg e with Msg t _ => t end;
  exc_traceback := fun _ => Some ("/app/core_execute/actionlib/action.py", 214%Z);
  format_exception := fun e =>
    "Traceback (most recent call last): " ++ exc_class e;
|}.

(** The same client under a Python runtime that reports no traceback
    for an exception. *)
Definition runtime_without_traceback : Runtime := {|
  db := list (string * string);
  render_string := render;
  update_status := fun prn status _ _ d =>
    (None, (d ++ [(prn, status)])%list);
  update_item := fun _ _ d => (None, d);
  RELEASE_IN_PROGRESS := "RELEASE_IN_PROGRESS";
  exc_str := fun e => match exc_msg e with Msg t _ => t end;
  exc_traceback := fun _ => None;
  format_exception := fun e => exc_class e;
|}.

Definition ConnectionError : exn :=
  mk_exn "ConnectionError" true (Msg "tracking store unreachable" []).

Definition KeyboardInterrupt : exn :=
  mk_exn "KeyboardInterrupt" false (Msg EmptyString []).

Definition RuntimeError : exn :=
  mk_exn "RuntimeError" true (Msg "image copy failed" []).

(** A concrete action whose [_execute] and [_check] raise [e]. *)
Definition RaisingAction `{RT : Runtime} (e : exn) : ConcreteAction := {|
  _execute := fun _ => raise e;
  _check := fun _ => raise e;
  _resolve := fun _ => ret tt;
  _cancel := fun _ => ret tt;
  _unexecute := fun _ => ret tt;
|}.

Definition definition (cond : string) (hooks : list dict) (save : bool)
    : ActionDefinition := {|
  Label := "prn:demo:app:main:1:action/deploy";
  Type_ := "SYSTEM::NoOp";
  Condition := cond;
  Before := [];
  After := [];
  DependsOn := [];
  Params := VDict [];
  LifecycleHooks := hooks;
  SaveOutputs := save;
|}.

(** A status hook on [event] with identity and details under
    [Parameters] and the status under [Parameters.On<event>]. *)
Definition status_hook (event identity status : string) : dict :=
  [ ("Type", VStr "status");
    ("States", VList [VStr event]);
    ("Parameters",
      VDict [ ("Identity", VStr identity);
              ("On" ++ event, VDict [("Status", VStr status)]) ]) ].

(** A hook whose identity is nested in the [On<event>] bundle only. *)
Definition nested_identity_hook (event identity status : string) : dict :=
  [ ("Type", VStr "status");
    ("States", VList [VStr event]);
    ("Parameters",
      VDict [ ("On" ++ event,
                VDict [("Status", VStr status);
                       ("Identity", VStr identity)]) ]) ].

(** A hook with [Parameters] and the identity at the root of the hook. *)
Definition root_identity_hook (event identity status : string) : dict :=
  [ ("Type", VStr "status");
    ("States", VList [VStr event]);
    ("Identity", VStr identity);
    ("Parameters",
      VDict [ ("On" ++ event, VDict [("Status", VStr status)]) ]) ].

(** A hook of a type the dispatcher does not know. *)
Definition email_hook (event : string) : dict :=
  [ ("Type", VStr "email"); ("States", VList [VStr event]) ].

(** The world before any call has run: an empty context, an empty
    store and no event. *)
Definition world0 (fail : option exn) : World (RT := runtime fail) :=
  mk_World (RT := runtime fail) ∅ ([] : list (string * string)) [].

End Demo.

(** ** What is observed of a call *)

Section Observations.

Context `{RT : Runtime}.

(** The world a call leaves, however it ends. *)
Definition world_of {A : Type} (o : Outcome A) : World :=
  match o with
  | Returns _ w => w
  | Raises _ w => w
  end.

Definition is_context_set (ev : event) : bool :=
  match ev with ContextSet _ _ => true | _ => false end.

Definition is_hook_fired (ev : event) : bool :=
  match ev with HookFired _ _ => true | _ => false end.

Definition is_update (ev : event) : bool :=
  match ev with UpdateStatus _ _ _ _ | UpdateItem _ _ => true | _ => false end.

(** The number of lifecycle hooks fired in a run of events. *)
Definition hook_firings (t : list event) : nat :=
  List.length (List.filter is_hook_fired t).

(** The number of writes of the context key [key] in a run of events. *)
Definition writes_of (key : string) (t : list event) : nat :=
  List.length
    (List.filter
       (fun ev => match ev with
                  | ContextSet k _ => k =? key
                  | _ => false
                  end) t).

(** A call that leaves the context as it found it, adds to the trace
    only events that [ok] accepts, and lets only exceptions that satisfy
    [P] leave. *)
Definition confined {A : Type} (ok : event -> bool) (P : exn -> Prop)
    (m : M A) : Prop :=
  forall w,
    context (world_of (m w)) = context w /\
    (exists t, trace (world_of (m w)) = (trace w ++ t)%list /\
               forallb ok t = true) /\
    (forall e w', m w = Raises e w' -> P e).

(** The events of logging and of the status-tracking client. *)
Definition is_report (ev : event) : bool :=
  match ev with
  | LogSetIdentity _ | LogResetIdentity | Log _ _ _
  | UpdateStatus _ _ _ _ | UpdateItem _ _ => true
  | ContextSet _ _ | HookFired _ _ => false
  end.

(** An exception that a call to the status-tracking client raises. *)
Definition from_tracker (e : exn) : Prop :=
  (exists prn status message details d d',
      update_status prn status message details d = (Some e, d')) \/
  (exists prn released_build_prn d d',
      update_item prn released_build_prn d = (Some e, d')).

(** Every event but a context write. *)
Definition is_not_write (ev : event) : bool := negb (is_context_set ev).

(** What [__get_status_code] and [__get_status_reason] read. *)
Definition status_code_of (self : BaseAction) (w : World) : value :=
  default (VStr (StatusCode.value StatusCode.PENDING))
          (context w !! (label self ++ "/" ++ STATUS_CODE)).

Definition status_reason_of (self : BaseAction) (w : World) : value :=
  default VNone (context w !! (label self ++ "/" ++ STATUS_REASON)).

(** The test that opens every status setter: the stored code is the
    target of the setter and the stored reason is the reason given. *)
Definition already (self : BaseAction) (code : StatusCode.t)
    (reason : string) (w : World) : bool :=
  eq_str (status_code_of self w) (StatusCode.value code) &&
  eq_str (status_reason_of self w) reason.

(** The three setters that fire lifecycle hooks, with the status code
    each one stores, the event it fires and the line it logs. *)
Inductive setter : Type := SetFailed | SetRunning | SetComplete.

Definition run_setter (s : setter) : BaseAction -> string -> M unit :=
  match s with
  | SetFailed => set_failed
  | SetRunning => set_running
  | SetComplete => set_complete
  end.

Definition target (s : setter) : StatusCode.t :=
  match s with
  | SetFailed => StatusCode.FAILED
  | SetRunning => StatusCode.RUNNING
  | SetComplete => StatusCode.COMPLETE
  end.

Definition hook_event (s : setter) : string :=
  match s with
  | SetFailed => LC_HOOK_FAILED
  | SetRunning => LC_HOOK_RUNNING
  | SetComplete => LC_HOOK_COMPLETE
  end.

Definition setter_log (s : setter) (reason : string) : event :=
  match s with
  | SetFailed => Log Debug "Action has failed - {}" [LVal (VStr reason)]
  | SetRunning =>
      Log Debug (if str_truthy reason then reason else "Action is running") []
  | SetComplete => Log Debug "Action is complete - {}" [LVal (VStr reason)]
  end.

(** The two context writes that store a status. *)
Definition store_status (self : BaseAction) (code : StatusCode.t)
    (reason : string) : M unit :=
  __set_context self (label self) STATUS_CODE (VStr (StatusCode.value code)) ;;;
  __set_context self (label self) STATUS_REASON (VStr reason).

End Observations.

(** ** The concrete action [SetVariablesAction] *)

(** [actions/system/set_variables.py]. Besides the attributes of
    [BaseAction] the action has [self.variables], the dictionary
    [self.params.Variables] ([None] when there is none), which has every
    key once and is gone through in insertion order. [_execute] and
    [_check] only read it and take it as an argument; [_resolve] assigns
    its values in place, so it is the function from the dictionary before
    to the dictionary after. *)
Module SetVariablesAction.

Section Methods.

Context `{RT : Runtime}.

Definition AttributeError (m : message) : exn :=
  mk_exn "AttributeError" true m.

(** [self.set_complete()] is a call without the required [reason]: it
    raises [TypeError] before the body of [set_complete] is entered. *)
Definition _execute (variables : option dict) (self : BaseAction) : M unit :=
  match variables with
  | None =>
      raise (AttributeError
               (Msg "'NoneType' object has no attribute 'items'" []))
  | Some d =>
      for_each d (fun entry =>
        set_output self (fst entry) (snd entry) ;;;
        set_state self (fst entry) (snd entry)) ;;;
      raise (TypeError
               (Msg "BaseAction.set_complete() missing 1 required positional argument: 'reason'"
                    []))
  end.

Definition _check (variables : option dict) (self : BaseAction) : M unit :=
  set_failed self "Internal error - _check() should not have been called".

(** The loop of [_resolve] over a dictionary: every value is replaced by
    its rendering against the context; when a rendering raises, the
    entries before it stay rendered, the others are as they were, and the
    exception is the result. *)
Fixpoint resolve_entries (ctx : gmap string value) (d : dict)
    : dict * option exn :=
  match d with
  | [] => ([], None)
  | (key, v) :: d' =>
      match render_string v ctx with
      | inl e => (d, Some e)
      | inr s =>
          let '(d'', r) := resolve_entries ctx d' in
          ((key, VStr s) :: d'', r)
      end
  end.

(** [_resolve]: the dictionary [self.variables] holds afterwards, and the
    outcome of the call. *)
Definition _resolve (variables : option dict) (self : BaseAction)
    : World -> option dict * Outcome unit :=
  fun w =>
    match variables with
    | None =>
        (None,
         Raises (TypeError (Msg "'NoneType' object is not iterable" [])) w)
    | Some d =>
        match resolve_entries (context w) d with
        | (d', None) => (Some d', Returns tt w)
        | (d', Some e) => (Some d', Raises e w)
        end
    end.

End Methods.

End SetVariablesAction.

(** ** More observations *)

(** The event is an element of the list a hook has under [States]. *)
Definition listens_to (event : string) (hook : dict) : bool :=
  match dict_get "States" (VList []) hook with
  | VList l => existsb (fun v => eq_str v event) l
  | _ => false
  end.

(** The number of occurrences of a character in a string. *)
Fixpoint count_char (c : ascii) (s : string) : nat :=
  match s with
  | EmptyString => 0
  | String c' s' => (if Ascii.eqb c' c then 1 else 0) + count_char c s'
  end.

(** * Properties *)

(** ** Strings *)

Lemma split_fields_join (sep : ascii) (s : string) :
  join (String sep EmptyString)
       (fst (split_fields sep s) :: snd (split_fields sep s)) = s.
Proof.
  induction s as [|c s IH]; [reflexivity|].
  cbn [split_fields].
  destruct (split_fields sep s) as [h t] eqn:E.
  cbn [fst snd] in IH.
  destruct (Ascii.eqb c sep) eqn:Ec.
  - apply Ascii.eqb_eq in Ec. subst c.
    cbn [fst snd]. change (join _ (EmptyString :: h :: t))
      with (EmptyString ++ String sep EmptyString ++ join (String sep EmptyString) (h :: t)).
    now rewrite IH.
  - cbn [fst snd]. destruct t as [|x t].
    + cbn in *. now rewrite IH.
    + change (join _ (String c h :: x :: t))
        with (String c (h ++ String sep EmptyString
                          ++ join (String sep EmptyString) (x :: t))).
      f_equal. exact IH.
Qed.

(** [sep.join(s.split(sep))] is [s]. *)
Lemma join_split (sep : ascii) (s : string) :
  join (String sep EmptyString) (split sep s) = s.
Proof.
  unfold split. pose proof (split_fields_join sep s) as H.
  now destruct (split_fields sep s).
Qed.

(** A slice that covers all the sections puts the identity together
    again. *)
Lemma join_firstn_split (sep : ascii) (s : string) (n : nat) :
  List.length (split sep s) = n ->
  join (String sep EmptyString) (firstn n (split sep s)) = s.
Proof.
  intros <-. rewrite firstn_all. apply join_split.
Qed.

Lemma append_inj_l (p a b : string) : p ++ a = p ++ b -> a = b.
Proof.
  induction p as [|c p IH]; cbn; [easy|].
  intros H. injection H. exact IH.
Qed.

(** The two keys a status is stored under are different keys. *)
Lemma status_keys_differ (l : string) :
  l ++ "/" ++ STATUS_CODE <> l ++ "/" ++ STATUS_REASON.
Proof.
  intros H. apply append_inj_l in H. discriminate H.
Qed.

(** ** The blackboard context *)

Section ContextFacts.

Context `{RT : Runtime}.

Lemma dict_truthy_false (ctx : gmap string value) :
  dict_truthy ctx = false -> ctx = ∅.
Proof.
  unfold dict_truthy. intros H.
  apply negb_false_iff, Nat.eqb_eq in H.
  now apply map_size_empty_inv.
Qed.

Lemma dict_truthy_lookup (ctx : gmap string value) (k : string) (v : value) :
  ctx !! k = Some v -> dict_truthy ctx = true.
Proof.
  intros H. destruct (dict_truthy ctx) eqn:E; [reflexivity|].
  apply dict_truthy_false in E. subst ctx. now rewrite lookup_empty in H.
Qed.

(** [__set_context] sets the key in the dictionary [self.context]
    names and records the write. *)
Lemma set_context_eq (self : BaseAction) (prn name : string) (v : value)
    (w : World) :
  __set_context self prn name v w =
  Returns tt (mk_World (<[ prn ++ "/" ++ name := v ]> (context w))
                       (store w)
                       (trace w ++ [ContextSet (prn ++ "/" ++ name) v])%list).
Proof.
  unfold __set_context.
  destruct (dict_truthy (context w)) eqn:E; cbn [negb]; [reflexivity|].
  apply dict_truthy_false in E. rewrite E. reflexivity.
Qed.

(** [__get_context] by what the dictionary holds under the key. *)
Lemma get_context_eq (self : BaseAction) (prn name : string)
    (default : value) (w : World) :
  __get_context self prn name default w =
  match context w !! (prn ++ "/" ++ name) with
  | Some v => Returns v w
  | None =>
      if eq_str default NO_DEFAULT
      then Raises (KeyError
             (Msg "Key '{}' is not in the context and no default was provided"
                  [VStr name])) w
      else Returns default w
  end.
Proof.
  unfold __get_context, bind, get_context_dict. cbv zeta.
  destruct (context w !! (prn ++ "/" ++ name)) as [v|] eqn:E.
  - rewrite (dict_truthy_lookup _ _ _ E). reflexivity.
  - destruct (dict_truthy (context w));
      destruct (eq_str default NO_DEFAULT); reflexivity.
Qed.

End ContextFacts.

(** ** State and output helpers *)

Section HelperFacts.

Context `{RT : Runtime}.

(** C9: [get_state] of a name under which the context holds nothing in
    the action's state namespace raises [KeyError] (no default is
    passed on); it does not return [None]. *)
Theorem get_state_unwritten_raises (self : BaseAction) (name : string)
    (w : World) :
  context w !! (state_namespace self ++ "/" ++ name) = None ->
  get_state self name w =
  Raises (KeyError
            (Msg "Key '{}' is not in the context and no default was provided"
                 [VStr name])) w.
Proof.
  intros H. unfold get_state. rewrite get_context_eq, H. reflexivity.
Qed.

(** Every lookup without a default is a [KeyError] when the key is
    missing. *)
Lemma get_context_no_default_raises (self : BaseAction) (prn name : string)
    (w : World) :
  context w !! (prn ++ "/" ++ name) = None ->
  __get_context self prn name (VStr NO_DEFAULT) w =
  Raises (KeyError
            (Msg "Key '{}' is not in the context and no default was provided"
                 [VStr name])) w.
Proof.
  intros H. rewrite get_context_eq, H. reflexivity.
Qed.

(** C10: an action built from a definition with [SaveOutputs] false has
    no output namespace, and its [get_output] returns [None] for every
    name in every world, whatever the context holds, and never raises;
    a lookup without default that does reach the context ([get_state],
    [get_output] with an output namespace) raises [KeyError] on a
    missing key. *)
Theorem get_output_disabled_returns_none (definition : ActionDefinition) :
  SaveOutputs definition = false ->
  output_namespace (BaseAction_init definition) = None /\
  (forall (name : string) (w : World),
      get_output (BaseAction_init definition) name w = Returns VNone w) /\
  (forall (self : BaseAction) (name : string) (w : World),
      context w !! (state_namespace self ++ "/" ++ name) = None ->
      exists e, get_state self name w = Raises e w /\
                exc_class e = "KeyError") /\
  (forall (self : BaseAction) (ns name : string) (w : World),
      output_namespace self = Some ns ->
      context w !! (ns ++ "/" ++ name) = None ->
      exists e, get_output self name w = Raises e w /\
                exc_class e = "KeyError").
Proof.
  intros Hs.
  assert (Hn : output_namespace (BaseAction_init definition) = None).
  { unfold BaseAction_init. cbn. now rewrite Hs. }
  split; [exact Hn|]. split; [|split].
  - intros name w. unfold get_output. now rewrite Hn.
  - intros self name w H. eexists. split.
    + now apply get_state_unwritten_raises.
    + reflexivity.
  - intros self ns name w Hns H. eexists. split.
    + unfold get_output. rewrite Hns.
      now apply get_context_no_default_raises.
    + reflexivity.
Qed.

(** C7: [set_output] always returns. Without an output namespace its
    only context write is the key of the state namespace; with one it
    writes the value under the output namespace and then under the state
    namespace. Every other key of the context and the store of the
    tracking client are as before. *)
Theorem set_output_writes (self : BaseAction) (name : string) (v : value)
    (w : World) :
  exists (w' : World) (t : list event),
    set_output self name v w = Returns tt w' /\
    store w' = store w /\
    trace w' = (trace w ++ t)%list /\
    context w' !! (state_namespace self ++ "/" ++ name) = Some v /\
    match output_namespace self with
    | None =>
        List.filter is_context_set t =
          [ContextSet (state_namespace self ++ "/" ++ name) v] /\
        (forall k, k <> state_namespace self ++ "/" ++ name ->
                   context w' !! k = context w !! k)
    | Some ns =>
        List.filter is_context_set t =
          [ContextSet (ns ++ "/" ++ name) v;
           ContextSet (state_namespace self ++ "/" ++ name) v] /\
        context w' !! (ns ++ "/" ++ name) = Some v /\
        (forall k, k <> ns ++ "/" ++ name ->
                   k <> state_namespace self ++ "/" ++ name ->
                   context w' !! k = context w !! k)
    end.
Proof.
  unfold set_output.
  destruct (output_namespace self) as [ns|].
  - unfold bind, log_debug, emit. rewrite !set_context_eq.
    cbn [context store trace].
    eexists _, [_; _; _]. split; [reflexivity|].
    cbn [context store trace].
    split; [reflexivity|].
    split; [rewrite <- !app_assoc; reflexivity|].
    split; [apply lookup_insert_eq|].
    split; [reflexivity|]. split.
    + destruct (decide (state_namespace self ++ "/" ++ name
                        = ns ++ "/" ++ name)) as [->|Hne].
      * apply lookup_insert_eq.
      * rewrite lookup_insert_ne by exact Hne. apply lookup_insert_eq.
    + intros k H1 H2.
      rewrite lookup_insert_ne by congruence.
      rewrite lookup_insert_ne by congruence. reflexivity.
  - unfold bind, ret. rewrite set_context_eq.
    eexists _, [_]. split; [reflexivity|].
    cbn [context store trace].
    split; [reflexivity|]. split; [reflexivity|].
    split; [apply lookup_insert_eq|].
    split; [reflexivity|].
    intros k H. rewrite lookup_insert_ne by congruence. reflexivity.
Qed.

End HelperFacts.

Lemma get_state_unwritten_raises_witness :
  context (Demo.world0 None) !!
    (state_namespace (BaseAction_init (Demo.definition "True" [] false))
       ++ "/" ++ "ImageId") = None /\
  get_state (RT := Demo.runtime None)
    (BaseAction_init (Demo.definition "True" [] false)) "ImageId"
    (Demo.world0 None) =
  Raises (KeyError
            (Msg "Key '{}' is not in the context and no default was provided"
                 [VStr "ImageId"])) (Demo.world0 None).
Proof.
  split; [reflexivity|].
  apply (get_state_unwritten_raises (RT := Demo.runtime None)). reflexivity.
Defined.

Lemma get_output_disabled_returns_none_witness :
  SaveOutputs (Demo.definition "True" [] false) = false /\
  forall (name : string) (w : World (RT := Demo.runtime None)),
    get_output (BaseAction_init (Demo.definition "True" [] false)) name w
    = Returns VNone w.
Proof.
  split; [reflexivity|].
  apply (get_output_disabled_returns_none (RT := Demo.runtime None)
           (Demo.definition "True" [] false)). reflexivity.
Defined.

(** ** Where a status hook takes its parameters from *)

Lemma py_in_dict (k : string) (d : dict) :
  py_in k (VDict d) = inr (bool_decide (is_Some (dict_lookup k d))).
Proof. reflexivity. Qed.

Lemma dict_get_some (k : string) (default v : value) (d : dict) :
  dict_lookup k d = Some v -> dict_get k default d = v.
Proof. unfold dict_get. now intros ->. Qed.

Lemma dict_get_none (k : string) (default : value) (d : dict) :
  dict_lookup k d = None -> dict_get k default d = default.
Proof. unfold dict_get. now intros ->. Qed.

Lemma dict_item_or_none (field : string) (d : dict) :
  match py_in field (VDict d) with
  | inl e => inl e
  | inr false => inr VNone
  | inr true => py_getitem (VDict d) field
  end = inr (dict_get field VNone d).
Proof.
  rewrite py_in_dict. unfold dict_get. cbn [py_getitem].
  destruct (dict_lookup field d) as [v|].
  - rewrite bool_decide_eq_true_2 by (now exists v). reflexivity.
  - rewrite bool_decide_eq_false_2 by (intros [? ?]; discriminate).
    reflexivity.
Qed.

Section HookParameters.

Context `{RT : Runtime}.

Lemma on_event_parameter_bundle (field event : string) (hook p b : dict) :
  dict_lookup "Parameters" hook = Some (VDict p) ->
  dict_lookup ("On" ++ event) p = Some (VDict b) ->
  on_event_parameter field event hook = inr (dict_get field VNone b).
Proof.
  intros Hp Hb. unfold on_event_parameter. cbv zeta.
  rewrite (dict_get_some _ _ _ _ Hp), py_in_dict.
  rewrite bool_decide_eq_true_2 by (rewrite Hb; now eexists).
  cbn [py_getitem]. rewrite Hb. apply dict_item_or_none.
Qed.

Lemma root_parameter_nested (field : string) (hook p : dict) :
  dict_lookup "Parameters" hook = Some (VDict p) ->
  root_parameter field hook = inr (dict_get field VNone p).
Proof.
  intros Hp. unfold root_parameter. cbv zeta.
  rewrite (dict_get_some _ _ _ _ Hp). apply dict_item_or_none.
Qed.

Lemma root_parameter_root (field : string) (hook : dict) :
  dict_lookup "Parameters" hook = None ->
  root_parameter field hook = inr (dict_get field VNone hook).
Proof.
  intros Hp. unfold root_parameter. cbv zeta.
  rewrite (dict_get_none _ _ _ Hp). apply dict_item_or_none.
Qed.

(** C8 as the code has it: the status and the message come from the
    bundle [Parameters.On<event>]; the identity and the details come
    from [Parameters] itself, the same for every event and whatever the
    [On<event>] bundle holds; the root of the hook is where identity and
    details are looked up only when the hook has no [Parameters] entry
    at all. A key that is missing where it is looked up gives [None]. *)
Theorem hook_parameters_resolution (event : string) (hook p : dict) :
  dict_lookup "Parameters" hook = Some (VDict p) ->
  (forall b : dict,
      dict_lookup ("On" ++ event) p = Some (VDict b) ->
      __get_status_parameter event hook = inr (dict_get "Status" VNone b) /\
      __get_message_parameter event hook = inr (dict_get "Message" VNone b))
  /\ __get_idenity_parameter event hook = inr (dict_get "Identity" VNone p)
  /\ __get_details_parameter event hook = inr (dict_get "Details" VNone p)
  /\ (forall hook' : dict,
        dict_lookup "Parameters" hook' = None ->
        __get_idenity_parameter event hook'
          = inr (dict_get "Identity" VNone hook') /\
        __get_details_parameter event hook'
          = inr (dict_get "Details" VNone hook')).
Proof.
  intros Hp. repeat split.
  - now apply on_event_parameter_bundle with (p := p).
  - now apply on_event_parameter_bundle with (p := p).
  - now apply root_parameter_nested.
  - now apply root_parameter_nested.
  - now apply root_parameter_root.
  - now apply root_parameter_root.
Qed.

End HookParameters.

Lemma hook_parameters_resolution_witness :
  dict_lookup "Parameters"
    (Demo.status_hook "Failed" "a:b:c:d:e:f" "COMPONENT_FAILED")
  = Some (VDict [ ("Identity", VStr "a:b:c:d:e:f");
                  ("OnFailed", VDict [("Status", VStr "COMPONENT_FAILED")]) ])
  /\ __get_idenity_parameter "Failed"
       (Demo.status_hook "Failed" "a:b:c:d:e:f" "COMPONENT_FAILED")
     = inr (VStr "a:b:c:d:e:f").
Proof.
  split; [reflexivity|].
  apply (hook_parameters_resolution "Failed"
           (Demo.status_hook "Failed" "a:b:c:d:e:f" "COMPONENT_FAILED")
           [ ("Identity", VStr "a:b:c:d:e:f");
             ("OnFailed", VDict [("Status", VStr "COMPONENT_FAILED")]) ]).
  reflexivity.
Defined.

(** C8 as stated fails: an identity that sits in the [On<event>] bundle
    is not found, and neither is one at the root of a hook that has a
    [Parameters] entry; in both cases the handler gets [None] (and skips
    the hook). *)
Lemma hook_identity_counterexample :
  ~ (forall (event : string) (hook p b : dict) (v : value),
        dict_lookup "Parameters" hook = Some (VDict p) ->
        dict_lookup ("On" ++ event) p = Some (VDict b) ->
        (dict_lookup "Identity" b = Some v ->
         __get_idenity_parameter event hook = inr v) /\
        (dict_lookup "Identity" b = None ->
         dict_lookup "Identity" hook = Some v ->
         __get_idenity_parameter event hook = inr v)).
Proof.
  intros H.
  destruct (H "Failed"
              (Demo.nested_identity_hook "Failed" "a:b:c:d:e:f" "COMPONENT_FAILED")
              [ ("OnFailed", VDict [ ("Status", VStr "COMPONENT_FAILED");
                                     ("Identity", VStr "a:b:c:d:e:f") ]) ]
              [ ("Status", VStr "COMPONENT_FAILED");
                ("Identity", VStr "a:b:c:d:e:f") ]
              (VStr "a:b:c:d:e:f") eq_refl eq_refl) as [H1 _].
  specialize (H1 eq_refl). discriminate H1.
Qed.

(** ** Calls that leave the context alone *)

Section Confinement.

Context `{RT : Runtime}.

Lemma confined_ret {A : Type} ok P (a : A) : confined ok P (ret a).
Proof.
  intros w. cbn. split; [reflexivity|]. split.
  - exists []. now rewrite app_nil_r.
  - discriminate.
Qed.

Lemma confined_raise {A : Type} ok (P : exn -> Prop) (e : exn) :
  P e -> confined ok P (raise (A := A) e).
Proof.
  intros HP w. cbn. split; [reflexivity|]. split.
  - exists []. now rewrite app_nil_r.
  - intros e' w' [= <- _]. exact HP.
Qed.

Lemma confined_lift {A : Type} ok (P : exn -> Prop) (r : exn + A) :
  (forall e, r = inl e -> P e) -> confined ok P (lift r).
Proof.
  destruct r as [e|a]; intros H.
  - apply confined_raise. now apply H.
  - apply confined_ret.
Qed.

Lemma confined_get_context_dict ok P : confined ok P get_context_dict.
Proof.
  intros w. cbn. split; [reflexivity|]. split.
  - exists []. now rewrite app_nil_r.
  - discriminate.
Qed.

Lemma confined_emit ok P (ev : event) :
  ok ev = true -> confined ok P (emit ev).
Proof.
  intros Hok w. cbn. split; [reflexivity|]. split.
  - exists [ev]. cbn. now rewrite Hok.
  - discriminate.
Qed.

Lemma confined_bind {A B : Type} ok P (m : M A) (k : A -> M B) :
  confined ok P m -> (forall a, confined ok P (k a)) ->
  confined ok P (bind m k).
Proof.
  intros Hm Hk w. unfold bind.
  destruct (Hm w) as (Hc & (t & Ht & Hok) & Hr).
  destruct (m w) as [a w1|e w1]; cbn in Hc, Ht.
  - destruct (Hk a w1) as (Hc' & (t' & Ht' & Hok') & Hr').
    split; [congruence|]. split.
    + exists (t ++ t')%list. rewrite Ht', Ht, app_assoc. split; [reflexivity|].
      rewrite forallb_app, Hok, Hok'. reflexivity.
    + exact Hr'.
  - cbn. split; [exact Hc|]. split.
    + now exists t.
    + intros e' w' [= <- _]. now apply (Hr e w1).
Qed.

Lemma confined_if {A : Type} ok P (b : bool) (m1 m2 : M A) :
  confined ok P m1 -> confined ok P m2 ->
  confined ok P (if b then m1 else m2).
Proof. now destruct b. Qed.

Lemma confined_weaken {A : Type} (ok ok' : event -> bool)
    (P P' : exn -> Prop) (m : M A) :
  (forall ev, ok ev = true -> ok' ev = true) ->
  (forall e, P e -> P' e) ->
  confined ok P m -> confined ok' P' m.
Proof.
  intros Hok HP Hm w. destruct (Hm w) as (Hc & (t & Ht & Ht') & Hr).
  split; [exact Hc|]. split.
  - exists t. split; [exact Ht|].
    rewrite forallb_forall in *. intros ev Hev. apply Hok. now apply Ht'.
  - intros e w' He. apply HP. now apply (Hr e w').
Qed.

(** What leaves a [try]/[except Exception]/[finally] statement: what the
    handler or the [finally] block raise, and what the body raises
    outside [Exception]. *)
Lemma confined_try_except_finally {A : Type} ok (P Q : exn -> Prop)
    (body : M A) (handler : exn -> M A) (final : M unit) :
  confined ok P body ->
  (forall e, confined ok Q (handler e)) ->
  confined ok Q final ->
  (forall e, P e -> exc_is_Exception e = false -> Q e) ->
  confined ok Q (try_except_finally body handler final).
Proof.
  intros Hb Hh Hf HPQ w. unfold try_except_finally.
  destruct (Hb w) as (Hc & (t & Ht & Hok) & Hr).
  assert (Ho : exists o : Outcome A,
             match body w with
             | Returns a w1 => Returns a w1
             | Raises e w1 =>
                 if exc_is_Exception e then handler e w1 else Raises e w1
             end = o /\
             context (world_of o) = context w /\
             (exists t, trace (world_of o) = (trace w ++ t)%list /\
                        forallb ok t = true) /\
             (forall e w', o = Raises e w' -> Q e)).
  { eexists. split; [reflexivity|].
    destruct (body w) as [a w1|e w1]; cbn in Hc, Ht.
    - split; [exact Hc|]. split; [now exists t|]. discriminate.
    - destruct (exc_is_Exception e) eqn:Ee.
      + destruct (Hh e w1) as (Hc' & (t' & Ht' & Hok') & Hr').
        split; [congruence|]. split; [|exact Hr'].
        exists (t ++ t')%list. rewrite Ht', Ht, app_assoc.
        split; [reflexivity|]. now rewrite forallb_app, Hok, Hok'.
      + split; [exact Hc|]. split; [now exists t|].
        intros e' w' [= <- _]. apply HPQ; [|exact Ee].
        now apply (Hr e w1). }
  destruct Ho as (o & -> & Hc1 & (t1 & Ht1 & Hok1) & Hr1).
  destruct o as [a w2|e w2]; cbn in Hc1, Ht1;
    destruct (Hf w2) as (Hc2 & (t2 & Ht2 & Hok2) & Hr2);
    destruct (final w2) as [u w3|e' w3]; cbn in Hc2, Ht2; cbn;
    (split; [congruence|]); (split;
      [exists (t1 ++ t2)%list; rewrite Ht2, Ht1, app_assoc;
       split; [reflexivity|]; now rewrite forallb_app, Hok1, Hok2|]).
  - discriminate.
  - intros e w' [= <- _]. now apply (Hr2 e' w3).
  - intros e0 w' [= <- _]. now apply (Hr1 e w2).
  - intros e0 w' [= <- _]. now apply (Hr2 e' w3).
Qed.

Lemma confined_for_each {A : Type} ok P (l : list A) (body : A -> M unit) :
  (forall x, confined ok P (body x)) -> confined ok P (for_each l body).
Proof.
  intros Hb. induction l as [|x l IH]; cbn [for_each].
  - apply confined_ret.
  - apply confined_bind; [apply Hb|]. intros _. exact IH.
Qed.

End Confinement.

(** ** Status propagation *)

Section Propagation.

Context `{RT : Runtime}.

Lemma confined_call_update_status prn status message details :
  confined is_report from_tracker
    (call_update_status prn status message details).
Proof.
  intros w. unfold call_update_status, bind, emit.
  cbn [context store trace].
  destruct (update_status prn status message details (store w))
    as [[e|] d] eqn:E; cbn [world_of context trace].
  - split; [reflexivity|]. split; [now exists [UpdateStatus prn status message details]|].
    intros e' w' [= <- _]. left. now exists prn, status, message, details, (store w), d.
  - split; [reflexivity|]. split; [now exists [UpdateStatus prn status message details]|].
    discriminate.
Qed.

Lemma confined_call_update_item prn released_build_prn :
  confined is_report from_tracker (call_update_item prn released_build_prn).
Proof.
  intros w. unfold call_update_item, bind, emit.
  cbn [context store trace].
  destruct (update_item prn released_build_prn (store w))
    as [[e|] d] eqn:E; cbn [world_of context trace].
  - split; [reflexivity|]. split; [now exists [UpdateItem prn released_build_prn]|].
    intros e' w' [= <- _]. right. now exists prn, released_build_prn, (store w), d.
  - split; [reflexivity|]. split; [now exists [UpdateItem prn released_build_prn]|].
    discriminate.
Qed.

Lemma confined_update_item_status_try identity status message details :
  confined is_report from_tracker
    (__update_item_status_try identity status message details).
Proof.
  unfold __update_item_status_try. cbv zeta.
  apply confined_bind; [now apply confined_emit|]. intros _.
  apply confined_bind; [|intros _].
  - apply confined_if; [|apply confined_ret].
    apply confined_bind; [apply confined_call_update_status|]. intros _.
    apply confined_if; [apply confined_call_update_item|apply confined_ret].
  - apply confined_if; [|apply confined_ret].
    apply confined_bind; [apply confined_call_update_status|]. intros _.
    apply confined_if; [apply confined_call_update_status|apply confined_ret].
Qed.

(** The adapter leaves the context alone, reports only through logging
    and the tracking client, and lets nothing out but what the tracking
    client raised outside [Exception]. *)
Lemma confined_update_item_status self identity status message details :
  confined is_report
    (fun e => from_tracker e /\ exc_is_Exception e = false)
    (__update_item_status self identity status message details).
Proof.
  unfold __update_item_status.
  apply confined_try_except_finally with (P := from_tracker).
  - apply confined_update_item_status_try.
  - intros e. now apply confined_emit.
  - now apply confined_emit.
  - now split.
Qed.

(** C6 as the code has it. An exception ends the [try] block of the
    adapter only when a call of the tracking client raises it. When it
    derives from [Exception] it is caught: the adapter logs it as a
    warning, resets the logger identity and returns, so nothing is raised
    to the hook and the status setter that called the adapter. The
    context, and with it the stored status code and reason of the action,
    is after the adapter what it was before, however the adapter ends.
    The only exception that leaves the adapter is one the tracking client
    raised outside [Exception] (an interrupt of the call), which
    [except Exception] does not catch. *)
Theorem update_item_status_swallows_errors (self : BaseAction)
    (identity status message : string) (details : value) (w : World) :
  (context (world_of
             (__update_item_status self identity status message details w))
   = context w /\
   status_code_of self
     (world_of (__update_item_status self identity status message details w))
   = status_code_of self w /\
   status_reason_of self
     (world_of (__update_item_status self identity status message details w))
   = status_reason_of self w) /\
  (forall e w1,
      __update_item_status_try identity status message details w
      = Raises e w1 ->
      from_tracker e /\
      (exc_is_Exception e = true ->
       __update_item_status self identity status message details w
       = Returns tt
           (mk_World (context w1) (store w1)
              (trace w1 ++
                 [Log Warn "Failed to update status via API - {}" [LExc e];
                  LogResetIdentity])%list)) /\
      (exc_is_Exception e = false ->
       __update_item_status self identity status message details w
       = Raises e
           (mk_World (context w1) (store w1)
              (trace w1 ++ [LogResetIdentity])%list))) /\
  (forall e w',
      __update_item_status self identity status message details w
      = Raises e w' ->
      from_tracker e /\ exc_is_Exception e = false).
Proof.
  destruct (confined_update_item_status self identity status message
              details w) as (Hc & _ & Hr).
  split; [|split].
  - unfold status_code_of, status_reason_of. now rewrite Hc.
  - intros e w1 Hbody.
    destruct (confined_update_item_status_try identity status message
                details w) as (_ & _ & Hr').
    split; [exact (Hr' e w1 Hbody)|].
    split; intros He;
      unfold __update_item_status, try_except_finally;
      rewrite Hbody, He; unfold log_warn, emit;
      cbn [context store trace]; now rewrite <- ?app_assoc.
  - exact Hr.
Qed.

End Propagation.

Section ComponentFailure.

Context `{RT : Runtime}.

Ltac trace_tail :=
  cbv beta iota zeta; cbn [world_of trace context store];
  rewrite <- ?app_assoc; cbn [app];
  eexists; reflexivity.

(** C5 as the code has it: for an identity of exactly six sections and
    a status that contains [_FAILED], the adapter first pushes the status
    to the identity itself (the component); when that call returns, it
    then pushes the same status string, with no message and no details,
    to the build named by the first five sections. *)
Theorem component_failure_reaches_build (self : BaseAction)
    (identity status message : string) (details : value) (w : World) :
  List.length (split ":" identity) = 6%nat ->
  is_substring "_FAILED" status = true ->
  (exists t,
      trace (world_of
               (__update_item_status self identity status message details w))
      = (trace w ++
           [LogSetIdentity identity;
            UpdateStatus identity status (Some message) (Some details)]
           ++ t)%list) /\
  (forall d1,
      update_status identity status (Some message) (Some details) (store w)
      = (None, d1) ->
      exists t,
        trace (world_of
                 (__update_item_status self identity status message details w))
        = (trace w ++
             [LogSetIdentity identity;
              UpdateStatus identity status (Some message) (Some details);
              UpdateStatus (join ":" (firstn 5 (split ":" identity)))
                status None None]
             ++ t)%list).
Proof.
  intros Hlen Hfailed.
  unfold __update_item_status, try_except_finally, __update_item_status_try.
  cbv zeta. rewrite (join_firstn_split ":" identity 6 Hlen), Hlen, Hfailed.
  cbn [Nat.eqb].
  unfold call_update_status, log_warn, emit, bind, ret.
  cbv beta iota zeta. cbn [context store trace].
  destruct (update_status identity status (Some message) (Some details)
              (store w)) as [[e|] d] eqn:E1.
  - split; [|discriminate].
    destruct (exc_is_Exception e); trace_tail.
  - cbv beta iota zeta. cbn [context store trace].
    destruct (update_status (join ":" (firstn 5 (split ":" identity)))
                status None None d) as [[e|] d'] eqn:E2.
    + split; [|intros d1 _]; destruct (exc_is_Exception e); trace_tail.
    + split; [|intros d1 _]; trace_tail.
Qed.

End ComponentFailure.

Lemma component_failure_reaches_build_witness :
  List.length (split ":" "a:b:c:d:e:f") = 6%nat /\
  is_substring "_FAILED" "COMPONENT_FAILED" = true /\
  exists t,
    trace (world_of
             (__update_item_status (RT := Demo.runtime None)
                (BaseAction_init (Demo.definition "True" [] false))
                "a:b:c:d:e:f" "COMPONENT_FAILED" "image copy failed" VNone
                (Demo.world0 None)))
    = (trace (Demo.world0 None) ++
         [LogSetIdentity "a:b:c:d:e:f";
          UpdateStatus "a:b:c:d:e:f" "COMPONENT_FAILED"
            (Some "image copy failed") (Some VNone);
          UpdateStatus (join ":" (firstn 5 (split ":" "a:b:c:d:e:f")))
            "COMPONENT_FAILED" None None]
         ++ t)%list.
Proof.
  split; [reflexivity|]. split; [reflexivity|].
  refine (proj2 (component_failure_reaches_build (RT := Demo.runtime None)
                   (BaseAction_init (Demo.definition "True" [] false))
                   "a:b:c:d:e:f" "COMPONENT_FAILED" "image copy failed" VNone
                   (Demo.world0 None) eq_refl eq_refl)
                [("a:b:c:d:e:f", "COMPONENT_FAILED")] eq_refl).
Defined.

(** C5 as stated fails: when the tracking client cannot be reached, the
    push to the component raises, the adapter logs the warning, and no
    update is pushed to the build. *)
Lemma component_failure_counterexample :
  ~ (forall (RT : Runtime) (self : BaseAction)
            (identity status message : string) (details : value)
            (w : World),
        List.length (split ":" identity) = 6%nat ->
        is_substring "_FAILED" status = true ->
        In (UpdateStatus identity status (Some message) (Some details))
           (trace (world_of
              (__update_item_status self identity status message details w)))
        /\
        In (UpdateStatus (join ":" (firstn 5 (split ":" identity)))
              status None None)
           (trace (world_of
              (__update_item_status self identity status message details w)))).
Proof.
  intros H.
  destruct (H (Demo.runtime (Some Demo.ConnectionError))
              (BaseAction_init (Demo.definition "True" [] false))
              "a:b:c:d:e:f" "COMPONENT_FAILED" "image copy failed" VNone
              (Demo.world0 (Some Demo.ConnectionError)) eq_refl eq_refl)
    as [_ Hbuild].
  vm_compute in Hbuild.
  repeat (destruct Hbuild as [Hbuild|Hbuild]; [discriminate Hbuild|]).
  exact Hbuild.
Qed.

Lemma update_item_status_swallows_errors_witness :
  exc_is_Exception Demo.ConnectionError = true /\
  __update_item_status (RT := Demo.runtime (Some Demo.ConnectionError))
    (BaseAction_init (Demo.definition "True" [] false))
    "a:b:c:d:e:f" "COMPONENT_FAILED" "image copy failed" VNone
    (Demo.world0 (Some Demo.ConnectionError))
  = Returns tt
      (mk_World (RT := Demo.runtime (Some Demo.ConnectionError)) ∅ []
         [LogSetIdentity "a:b:c:d:e:f";
          UpdateStatus "a:b:c:d:e:f" "COMPONENT_FAILED"
            (Some "image copy failed") (Some VNone);
          Log Warn "Failed to update status via API - {}"
            [LExc Demo.ConnectionError];
          LogResetIdentity]) /\
  exc_is_Exception Demo.KeyboardInterrupt = false /\
  __update_item_status (RT := Demo.runtime (Some Demo.KeyboardInterrupt))
    (BaseAction_init (Demo.definition "True" [] false))
    "a:b:c:d:e" "BUILD_FAILED" "image copy failed" VNone
    (Demo.world0 (Some Demo.KeyboardInterrupt))
  = Raises Demo.KeyboardInterrupt
      (mk_World (RT := Demo.runtime (Some Demo.KeyboardInterrupt)) ∅ []
         [LogSetIdentity "a:b:c:d:e";
          UpdateStatus "a:b:c:d:e" "BUILD_FAILED"
            (Some "image copy failed") (Some VNone);
          LogResetIdentity]).
Proof.
  split; [reflexivity|]. split; [|split; [reflexivity|]].
  - assert (Hbody :
      __update_item_status_try
        (RT := Demo.runtime (Some Demo.ConnectionError))
        "a:b:c:d:e:f" "COMPONENT_FAILED" "image copy failed" VNone
        (Demo.world0 (Some Demo.ConnectionError))
      = Raises Demo.ConnectionError
          (mk_World (RT := Demo.runtime (Some Demo.ConnectionError)) ∅ []
             [LogSetIdentity "a:b:c:d:e:f";
              UpdateStatus "a:b:c:d:e:f" "COMPONENT_FAILED"
                (Some "image copy failed") (Some VNone)]))
      by (vm_compute; reflexivity).
    exact (proj1 (proj2 (proj1 (proj2
             (update_item_status_swallows_errors
                (RT := Demo.runtime (Some Demo.ConnectionError))
                (BaseAction_init (Demo.definition "True" [] false))
                "a:b:c:d:e:f" "COMPONENT_FAILED" "image copy failed" VNone
                (Demo.world0 (Some Demo.ConnectionError))))
             _ _ Hbody)) eq_refl).
  - assert (Hbody :
      __update_item_status_try
        (RT := Demo.runtime (Some Demo.KeyboardInterrupt))
        "a:b:c:d:e" "BUILD_FAILED" "image copy failed" VNone
        (Demo.world0 (Some Demo.KeyboardInterrupt))
      = Raises Demo.KeyboardInterrupt
          (mk_World (RT := Demo.runtime (Some Demo.KeyboardInterrupt)) ∅ []
             [LogSetIdentity "a:b:c:d:e";
              UpdateStatus "a:b:c:d:e" "BUILD_FAILED"
                (Some "image copy failed") (Some VNone)]))
      by (vm_compute; reflexivity).
    exact (proj2 (proj2 (proj1 (proj2
             (update_item_status_swallows_errors
                (RT := Demo.runtime (Some Demo.KeyboardInterrupt))
                (BaseAction_init (Demo.definition "True" [] false))
                "a:b:c:d:e" "BUILD_FAILED" "image copy failed" VNone
                (Demo.world0 (Some Demo.KeyboardInterrupt))))
             _ _ Hbody)) eq_refl).
Defined.

(** ** The status state machine *)

Section StateMachine.

Context `{RT : Runtime}.

Lemma eq_str_true (v : value) (s : string) :
  eq_str v s = true <-> v = VStr s.
Proof.
  destruct v; cbn; try (split; [discriminate|intros [=]]).
  rewrite String.eqb_eq. split; [now intros ->|now intros [= ->]].
Qed.

Lemma get_status_code_eq (self : BaseAction) (w : World) :
  __get_status_code self w = Returns (status_code_of self w) w.
Proof.
  unfold __get_status_code, status_code_of. rewrite get_context_eq.
  now destruct (context w !! _).
Qed.

Lemma get_status_reason_eq (self : BaseAction) (w : World) :
  __get_status_reason self w = Returns (status_reason_of self w) w.
Proof.
  unfold __get_status_reason, status_reason_of. rewrite get_context_eq.
  now destruct (context w !! _).
Qed.

Ltac setter_guard self w :=
  unfold bind at 1; unfold is_failed, is_running, is_complete;
  unfold bind at 1; rewrite get_status_code_eq; unfold ret at 1;
  unfold already;
  destruct (eq_str (status_code_of self w) _); cbn [andb];
  [ unfold bind at 1; unfold bind at 1; rewrite get_status_reason_eq;
    unfold ret at 1;
    destruct (eq_str (status_reason_of self w) _); reflexivity
  | reflexivity ].

(** Every hook-firing setter is the same procedure. *)
Lemma run_setter_eq (s : setter) (self : BaseAction) (reason : string)
    (w : World) :
  run_setter s self reason w =
  if already self (target s) reason w then Returns tt w
  else (emit (setter_log s reason) ;;;
        __execute_lifecycle_hooks self (hook_event s) reason ;;;
        store_status self (target s) reason) w.
Proof.
  destruct s; cbn [run_setter target hook_event setter_log];
    unfold set_failed, set_running, set_complete; setter_guard self w.
Qed.

Lemma set_skipped_eq (self : BaseAction) (reason : string) (w : World) :
  set_skipped self reason w =
  if already self StatusCode.COMPLETE reason w then Returns tt w
  else (emit (Log Debug "Action has been skipped - {}" [LVal (VStr reason)]) ;;;
        store_status self StatusCode.COMPLETE reason) w.
Proof.
  unfold set_skipped. setter_guard self w.
Qed.

(** What the two writes of a status leave. *)
Lemma store_status_eq (self : BaseAction) (code : StatusCode.t)
    (reason : string) (w : World) :
  store_status self code reason w =
  Returns tt
    (mk_World
       (<[ label self ++ "/" ++ STATUS_REASON := VStr reason ]>
          (<[ label self ++ "/" ++ STATUS_CODE
              := VStr (StatusCode.value code) ]> (context w)))
       (store w)
       (trace w ++
          [ContextSet (label self ++ "/" ++ STATUS_CODE)
             (VStr (StatusCode.value code));
           ContextSet (label self ++ "/" ++ STATUS_REASON) (VStr reason)])%list).
Proof.
  unfold store_status, bind. rewrite !set_context_eq.
  cbn [context store trace]. now rewrite <- app_assoc.
Qed.

Lemma already_after_store (self : BaseAction) (code : StatusCode.t)
    (reason : string) (w w' : World) :
  context w' =
    <[ label self ++ "/" ++ STATUS_REASON := VStr reason ]>
      (<[ label self ++ "/" ++ STATUS_CODE
          := VStr (StatusCode.value code) ]> (context w)) ->
  status_code_of self w' = VStr (StatusCode.value code) /\
  status_reason_of self w' = VStr reason /\
  already self code reason w' = true.
Proof.
  intros Hc. unfold already, status_code_of, status_reason_of. rewrite Hc.
  rewrite lookup_insert_eq.
  rewrite lookup_insert_ne by (apply not_eq_sym, status_keys_differ).
  rewrite lookup_insert_eq. cbn [default from_option id eq_str].
  rewrite !String.eqb_refl. auto.
Qed.


End StateMachine.

(** ** The lifecycle-hook dispatcher *)

Section Hooks.

Context `{RT : Runtime}.

Lemma confined_render_if_truthy ok (v : value) :
  confined ok (fun _ : exn => True) (render_if_truthy v).
Proof.
  unfold render_if_truthy. apply confined_if; [|apply confined_ret].
  apply confined_bind; [apply confined_get_context_dict|]. intros ctx.
  apply confined_bind; [now apply confined_lift|]. intros s.
  apply confined_ret.
Qed.

(** A status hook reports through logging and the tracking client only:
    it writes no context key. *)
Lemma confined_execute_status_hook (self : BaseAction) (event : string)
    (hook : dict) (reason : string) :
  confined is_report (fun _ : exn => True)
    (__execute_status_hook self event hook reason).
Proof.
  unfold __execute_status_hook.
  do 4 (apply confined_bind; [now apply confined_lift|]; intros ?).
  do 3 (apply confined_bind; [apply confined_render_if_truthy|]; intros ?).
  apply confined_if; [now apply confined_emit|].
  apply confined_if; [now apply confined_emit|].
  eapply confined_weaken; [| |apply confined_update_item_status];
    now intros.
Qed.

Lemma confined_execute_lifecycle_hook (self : BaseAction) (event : string)
    (hook_type : value) (hook : dict) (reason : string) :
  confined is_not_write (fun _ : exn => True)
    (__execute_lifecycle_hook self event hook_type hook reason).
Proof.
  unfold __execute_lifecycle_hook.
  apply confined_bind; [now apply confined_emit|]. intros _.
  apply confined_if; [|now apply confined_raise].
  eapply confined_weaken; [| |apply confined_execute_status_hook].
  - now intros [].
  - now intros.
Qed.

(** Firing the hooks of an event never writes the context. *)
Lemma confined_execute_lifecycle_hooks (self : BaseAction)
    (event reason : string) :
  confined is_not_write (fun _ : exn => True)
    (__execute_lifecycle_hooks self event reason).
Proof.
  unfold __execute_lifecycle_hooks.
  apply confined_bind; [now apply confined_lift|]. intros hooks.
  apply confined_for_each. intros h.
  apply confined_bind; [now apply confined_lift|]. intros hook_type.
  apply confined_execute_lifecycle_hook.
Qed.

Lemma hook_firings_app (t1 t2 : list event) :
  hook_firings (t1 ++ t2) = (hook_firings t1 + hook_firings t2)%nat.
Proof. unfold hook_firings. now rewrite List.filter_app, length_app. Qed.

Lemma writes_of_app (key : string) (t1 t2 : list event) :
  writes_of key (t1 ++ t2) = (writes_of key t1 + writes_of key t2)%nat.
Proof. unfold writes_of. now rewrite List.filter_app, length_app. Qed.

Lemma hook_firings_report (t : list event) :
  forallb is_report t = true -> hook_firings t = 0%nat.
Proof.
  induction t as [|ev t IH]; [reflexivity|]. cbn [forallb].
  rewrite andb_true_iff. intros [Hev Ht].
  change (ev :: t) with ([ev] ++ t)%list. rewrite hook_firings_app, (IH Ht).
  now destruct ev.
Qed.

Lemma writes_of_not_write (key : string) (t : list event) :
  forallb is_not_write t = true -> writes_of key t = 0%nat.
Proof.
  induction t as [|ev t IH]; [reflexivity|]. cbn [forallb].
  rewrite andb_true_iff. intros [Hev Ht].
  change (ev :: t) with ([ev] ++ t)%list. rewrite writes_of_app, (IH Ht).
  now destruct ev.
Qed.

(** When the loop over the hooks of an event returns, every one of them
    has been fired exactly once. *)
Lemma for_each_hook_fires_once (self : BaseAction) (event reason : string)
    (hooks : list dict) (w w' : World) :
  for_each hooks (fun event_hook =>
    let* hook_type := lift (py_getitem (VDict event_hook) "Type") in
    __execute_lifecycle_hook self event hook_type event_hook reason) w
  = Returns tt w' ->
  exists t, trace w' = (trace w ++ t)%list /\
            hook_firings t = List.length hooks.
Proof.
  revert w. induction hooks as [|h hooks IH]; intros w; cbn [for_each].
  - intros [= <-]. exists []. now rewrite app_nil_r.
  - unfold bind at 1.
    destruct (bind (lift (py_getitem (VDict h) "Type")) _ w)
      as [[] w1|e w1] eqn:Eh; [|discriminate].
    intros Hrest. destruct (IH w1 Hrest) as (t2 & Ht2 & Hn2).
    revert Eh. unfold bind at 1.
    destruct (py_getitem (VDict h) "Type") as [e|hook_type];
      [discriminate|]. cbn [lift ret].
    unfold __execute_lifecycle_hook, bind at 1, emit.
    destruct (eq_str hook_type LC_TYPE_STATUS); [|discriminate].
    intros Hs.
    destruct (confined_execute_status_hook self event h reason
                (mk_World (context w) (store w)
                   (trace w ++ [HookFired event h])%list))
      as (_ & (t1 & Ht1 & Hok1) & _).
    rewrite Hs in Ht1. cbn [world_of trace] in Ht1.
    exists ([HookFired event h] ++ t1 ++ t2)%list. split.
    + rewrite Ht2, Ht1, <- !app_assoc. reflexivity.
    + rewrite !hook_firings_app, (hook_firings_report t1 Hok1), Hn2.
      reflexivity.
Qed.

End Hooks.

(** ** Idempotence of the status setters *)

Section Idempotence.

Context `{RT : Runtime}.

Lemma writes_of_status (self : BaseAction) (v1 v2 : value) :
  writes_of (label self ++ "/" ++ STATUS_CODE)
    [ContextSet (label self ++ "/" ++ STATUS_CODE) v1;
     ContextSet (label self ++ "/" ++ STATUS_REASON) v2] = 1%nat /\
  writes_of (label self ++ "/" ++ STATUS_REASON)
    [ContextSet (label self ++ "/" ++ STATUS_CODE) v1;
     ContextSet (label self ++ "/" ++ STATUS_REASON) v2] = 1%nat.
Proof.
  unfold writes_of. cbn [List.filter].
  rewrite !String.eqb_refl.
  rewrite (proj2 (String.eqb_neq _ _) (status_keys_differ (label self))).
  rewrite (proj2 (String.eqb_neq _ _)
             (not_eq_sym (status_keys_differ (label self)))).
  split; reflexivity.
Qed.

(** A setter that changes the state and returns: what it leaves. *)
Lemma run_setter_changes (s : setter) (self : BaseAction) (reason : string)
    (w w1 : World) :
  already self (target s) reason w = false ->
  run_setter s self reason w = Returns tt w1 ->
  context w1 =
    <[ label self ++ "/" ++ STATUS_REASON := VStr reason ]>
      (<[ label self ++ "/" ++ STATUS_CODE
          := VStr (StatusCode.value (target s)) ]> (context w)) /\
  exists hooks t,
    event_hooks (hook_event s) (lifecycle_hooks self) = inr hooks /\
    trace w1 = (trace w ++ t)%list /\
    hook_firings t = List.length hooks /\
    writes_of (label self ++ "/" ++ STATUS_CODE) t = 1%nat /\
    writes_of (label self ++ "/" ++ STATUS_REASON) t = 1%nat.
Proof.
  intros Hne. rewrite run_setter_eq, Hne.
  unfold bind at 1, emit at 1. unfold bind at 1.
  set (w0 := mk_World (context w) (store w)
               (trace w ++ [setter_log s reason])%list).
  destruct (confined_execute_lifecycle_hooks self (hook_event s) reason w0)
    as (Hc & (th & Hth & Hok) & _).
  destruct (__execute_lifecycle_hooks self (hook_event s) reason w0)
    as [[] w2|e w2] eqn:Eh; [|discriminate].
  cbn [world_of] in Hc, Hth. rewrite store_status_eq. intros [= <-].
  cbn [context trace]. split; [now rewrite Hc|].
  revert Eh. unfold __execute_lifecycle_hooks, bind at 1.
  destruct (event_hooks (hook_event s) (lifecycle_hooks self))
    as [e|hooks]; [discriminate|]. cbn [lift ret]. intros Eh.
  destruct (for_each_hook_fires_once _ _ _ _ _ _ Eh) as (th' & Hth' & Hn).
  assert (th' = th) as -> by (rewrite Hth in Hth'; now apply app_inv_head in Hth').
  exists hooks. eexists. split; [reflexivity|]. split.
  - rewrite Hth. subst w0. cbn [trace]. rewrite <- !app_assoc. reflexivity.
  - rewrite !hook_firings_app, !writes_of_app, Hn.
    rewrite !(writes_of_not_write _ th Hok).
    destruct (writes_of_status self (VStr (StatusCode.value (target s)))
                (VStr reason)) as [-> ->].
    destruct s; cbn; repeat split; lia.
Qed.


(** [set_skipped] follows the same rule without the hooks. *)
Lemma set_skipped_idempotent (self : BaseAction) (reason : string)
    (w w1 : World) :
  set_skipped self reason w = Returns tt w1 ->
  set_skipped self reason w1 = Returns tt w1.
Proof.
  rewrite !set_skipped_eq.
  destruct (already self StatusCode.COMPLETE reason w) eqn:Ha.
  - intros [= <-]. now rewrite Ha.
  - unfold bind, emit. rewrite store_status_eq. intros [= <-].
    match goal with
    | |- (if already _ _ _ ?w2 then _ else _) = _ =>
        destruct (already_after_store self StatusCode.COMPLETE reason
                    w w2 eq_refl) as (_ & _ & ->)
    end.
    reflexivity.
Qed.

End Idempotence.



(** The run of the two calls: both raise, the tracking client has
    accepted the update of the component and of its build twice, and the
    context is still empty. *)
Example set_failed_twice_with_failing_hook :
  let self := BaseAction_init
         (Demo.definition "True"
            [Demo.status_hook "Failed" "a:b:c:d:e:f" "COMPONENT_FAILED";
             Demo.email_hook "Failed"] false) in
  let o1 := set_failed (RT := Demo.runtime None) self "image copy failed"
              (Demo.world0 None) in
  let o2 := set_failed (RT := Demo.runtime None) self "image copy failed"
              (world_of o1) in
  (exists e w1, o1 = Raises e w1) /\
  (exists e w2, o2 = Raises e w2) /\
  store (world_of o2)
  = [("a:b:c:d:e:f", "COMPONENT_FAILED"); ("a:b:c:d:e", "COMPONENT_FAILED");
     ("a:b:c:d:e:f", "COMPONENT_FAILED"); ("a:b:c:d:e", "COMPONENT_FAILED")] /\
  hook_firings (trace (world_of o2)) = 4%nat /\
  context (world_of o2) = ∅.
Proof.
  cbv zeta. split; [|split; [|split; [|split]]].
  - do 2 eexists. vm_compute. reflexivity.
  - do 2 eexists. vm_compute. reflexivity.
  - vm_compute. reflexivity.
  - vm_compute. reflexivity.
  - vm_compute. reflexivity.
Qed.

(** ** Skipping *)

Section Skip.

Context `{RT : Runtime}.

(** What [set_skipped] does: nothing when the action is already
    complete with the reason; otherwise one line of log and the two
    writes of the status. It always returns. *)
Lemma set_skipped_spec (self : BaseAction) (reason : string) (w : World) :
  exists w',
    set_skipped self reason w = Returns tt w' /\
    store w' = store w /\
    trace w' =
      (trace w ++
         if already self StatusCode.COMPLETE reason w then []
         else [Log Debug "Action has been skipped - {}" [LVal (VStr reason)];
               ContextSet (label self ++ "/" ++ STATUS_CODE)
                 (VStr (StatusCode.value StatusCode.COMPLETE));
               ContextSet (label self ++ "/" ++ STATUS_REASON)
                 (VStr reason)])%list /\
    status_code_of self w' = VStr (StatusCode.value StatusCode.COMPLETE) /\
    status_reason_of self w' = VStr reason.
Proof.
  rewrite set_skipped_eq.
  destruct (already self StatusCode.COMPLETE reason w) eqn:Ha.
  - exists w. rewrite app_nil_r.
    unfold already in Ha. apply andb_true_iff in Ha as [Hc Hr].
    apply eq_str_true in Hc, Hr. auto.
  - unfold bind, emit. rewrite store_status_eq. eexists.
    split; [reflexivity|]. cbn [context store trace].
    split; [reflexivity|]. split; [now rewrite <- app_assoc|].
    match goal with
    | |- status_code_of _ ?w2 = _ /\ _ =>
        destruct (already_after_store self StatusCode.COMPLETE reason
                    w w2 eq_refl) as (Hc & Hr & _)
    end.
    now split.
Qed.

(** With a condition that does not render to [true], [execute] is
    [set_skipped] between the two identity calls of the logger. *)
Lemma execute_skip_eq {CA : @ConcreteAction RT} (self : BaseAction)
    (w : World) (r : string) :
  render_string (VStr ("{{ " ++ condition self ++ " }}")) (context w)
    = inr r ->
  lower r <> "true" ->
  execute self w =
  (emit (LogSetIdentity (label self)) ;;;
   set_skipped self ("Condition evaluated to '" ++ r ++ "'") ;;;
   emit LogResetIdentity) w.
Proof.
  intros Hr Hl. apply String.eqb_neq in Hl.
  unfold execute, try_except_finally, bind, get_context_dict, emit.
  cbn [context store trace]. rewrite Hr. unfold lift, ret. rewrite Hl.
  destruct (set_skipped_spec self ("Condition evaluated to '" ++ r ++ "'")
              (mk_World (context w) (store w)
                 (trace w ++ [LogSetIdentity (label self)])%list))
    as (w' & -> & _).
  reflexivity.
Qed.

End Skip.

Section SkipTheorems.

Context `{RT : Runtime}.

(** C3: when the condition renders, without raising, to a string whose
    lower case is not [true], [execute] returns whatever the concrete
    action is (its [_resolve] and [_execute] play no part in the result),
    and leaves the stored status code [complete] with the reason that
    quotes the rendered value: the action is neither running nor
    failed. *)
Theorem execute_condition_not_true (self : BaseAction) (w : World)
    (r : string) :
  render_string (VStr ("{{ " ++ condition self ++ " }}")) (context w)
    = inr r ->
  lower r <> "true" ->
  exists w',
    (forall CA : ConcreteAction, execute (CA := CA) self w = Returns tt w') /\
    __get_status_code self w' = Returns (VStr "complete") w' /\
    __get_status_reason self w'
      = Returns (VStr ("Condition evaluated to '" ++ r ++ "'")) w' /\
    is_complete self w' = Returns true w' /\
    is_running self w' = Returns false w' /\
    is_failed self w' = Returns false w'.
Proof.
  intros Hr Hl.
  destruct (set_skipped_spec self ("Condition evaluated to '" ++ r ++ "'")
              (mk_World (context w) (store w)
                 (trace w ++ [LogSetIdentity (label self)])%list))
    as (w1 & Hs & _ & _ & Hc & Hre).
  exists (mk_World (context w1) (store w1) (trace w1 ++ [LogResetIdentity])%list).
  split.
  - intros CA. rewrite (execute_skip_eq self w r Hr Hl).
    unfold bind, emit. cbn [context store trace]. now rewrite Hs.
  - unfold is_complete, is_running, is_failed, bind.
    rewrite get_status_code_eq, get_status_reason_eq.
    change (status_code_of self (mk_World (context w1) (store w1)
              (trace w1 ++ [LogResetIdentity])%list))
      with (status_code_of self w1).
    change (status_reason_of self (mk_World (context w1) (store w1)
              (trace w1 ++ [LogResetIdentity])%list))
      with (status_reason_of self w1).
    rewrite Hc, Hre. repeat split.
Qed.

(** C4 as the code has it: the skip transition fires no lifecycle hook
    and pushes nothing to the tracking client; when it changes the state
    it logs the skip and writes the status code [complete] and the
    reason, and that is all. *)
Theorem skip_fires_no_hook {CA : @ConcreteAction RT} (self : BaseAction)
    (w : World) (r : string) :
  render_string (VStr ("{{ " ++ condition self ++ " }}")) (context w)
    = inr r ->
  lower r <> "true" ->
  exists w' t,
    execute self w = Returns tt w' /\
    store w' = store w /\
    trace w' = (trace w ++ t)%list /\
    hook_firings t = 0%nat /\
    List.filter is_update t = [] /\
    (already self StatusCode.COMPLETE
       ("Condition evaluated to '" ++ r ++ "'") w = false ->
     List.filter is_context_set t =
       [ContextSet (label self ++ "/" ++ STATUS_CODE) (VStr "complete");
        ContextSet (label self ++ "/" ++ STATUS_REASON)
          (VStr ("Condition evaluated to '" ++ r ++ "'"))]).
Proof.
  intros Hr Hl. rewrite (execute_skip_eq self w r Hr Hl).
  unfold bind at 1, emit at 1. unfold bind at 1.
  destruct (set_skipped_spec self ("Condition evaluated to '" ++ r ++ "'")
              (mk_World (context w) (store w)
                 (trace w ++ [LogSetIdentity (label self)])%list))
    as (w1 & -> & Hst & Ht & _).
  unfold emit. eexists. eexists. split; [reflexivity|].
  cbn [context store trace] in *. split; [exact Hst|].
  rewrite Ht.
  change (already self StatusCode.COMPLETE
            ("Condition evaluated to '" ++ r ++ "'")
            (mk_World (context w) (store w)
               (trace w ++ [LogSetIdentity (label self)])%list))
    with (already self StatusCode.COMPLETE
            ("Condition evaluated to '" ++ r ++ "'") w).
  split; [rewrite <- !app_assoc; reflexivity|].
  destruct (already self StatusCode.COMPLETE _ w).
  - repeat split. discriminate.
  - repeat split.
Qed.

End SkipTheorems.

Lemma execute_condition_not_true_witness :
  render_string (Runtime := Demo.runtime None)
    (VStr ("{{ " ++ condition (BaseAction_init (Demo.definition "False" [] false))
             ++ " }}"))
    (context (Demo.world0 None)) = inr "False" /\
  lower "False" <> "true" /\
  exists w',
    (forall CA : ConcreteAction,
        execute (CA := CA) (BaseAction_init (Demo.definition "False" [] false))
          (Demo.world0 None) = Returns tt w') /\
    __get_status_code (BaseAction_init (Demo.definition "False" [] false)) w'
      = Returns (VStr "complete") w'.
Proof.
  split; [reflexivity|]. split; [discriminate|].
  destruct (execute_condition_not_true (RT := Demo.runtime None)
              (BaseAction_init (Demo.definition "False" [] false))
              (Demo.world0 None) "False" eq_refl ltac:(discriminate))
    as (w' & Hex & Hc & _).
  exists w'. split; [exact Hex|exact Hc].
Defined.

Lemma skip_fires_no_hook_witness :
  render_string (Runtime := Demo.runtime None)
    (VStr ("{{ " ++ condition
             (BaseAction_init
                (Demo.definition "False"
                   [Demo.status_hook "Complete" "a:b:c:d:e" "DEPLOY_COMPLETE"]
                   false)) ++ " }}"))
    (context (Demo.world0 None)) = inr "False" /\
  lower "False" <> "true" /\
  exists w' t,
    execute (CA := NoOpAction)
      (BaseAction_init
         (Demo.definition "False"
            [Demo.status_hook "Complete" "a:b:c:d:e" "DEPLOY_COMPLETE"] false))
      (Demo.world0 None) = Returns tt w' /\
    trace w' = (trace (Demo.world0 None) ++ t)%list /\
    hook_firings t = 0%nat.
Proof.
  split; [reflexivity|]. split; [discriminate|].
  destruct (skip_fires_no_hook (RT := Demo.runtime None) (CA := NoOpAction)
              (BaseAction_init
                 (Demo.definition "False"
                    [Demo.status_hook "Complete" "a:b:c:d:e" "DEPLOY_COMPLETE"]
                    false))
              (Demo.world0 None) "False" eq_refl ltac:(discriminate))
    as (w' & t & Hex & _ & Ht & Hf & _).
  exists w', t. auto.
Defined.

(** C4 as stated fails: an action with a status hook declared for
    [Complete] whose condition renders to [False] is skipped, its status
    goes from pending to complete, and the hook is not fired. *)
Lemma skip_fires_no_hook_counterexample :
  ~ (forall (RT : Runtime) (CA : ConcreteAction) (self : BaseAction)
            (w w' : World) (r : string) (hooks : list dict),
        render_string (VStr ("{{ " ++ condition self ++ " }}")) (context w)
          = inr r ->
        lower r <> "true" ->
        is_complete self w = Returns false w ->
        execute self w = Returns tt w' ->
        event_hooks LC_HOOK_COMPLETE (lifecycle_hooks self) = inr hooks ->
        forall h, In h hooks -> In (HookFired LC_HOOK_COMPLETE h) (trace w')).
Proof.
  intros H.
  pose (self := BaseAction_init
         (Demo.definition "False"
            [Demo.status_hook "Complete" "a:b:c:d:e" "DEPLOY_COMPLETE"] false)).
  pose (w' := world_of (execute (RT := Demo.runtime None) (CA := NoOpAction)
                          self (Demo.world0 None))).
  assert (Hin : In (HookFired LC_HOOK_COMPLETE
                      (Demo.status_hook "Complete" "a:b:c:d:e" "DEPLOY_COMPLETE"))
                   (trace w')).
  { apply (H (Demo.runtime None) NoOpAction self (Demo.world0 None) w' "False"
             [Demo.status_hook "Complete" "a:b:c:d:e" "DEPLOY_COMPLETE"]).
    - reflexivity.
    - discriminate.
    - vm_compute. reflexivity.
    - vm_compute. reflexivity.
    - reflexivity.
    - now left. }
  vm_compute in Hin.
  repeat (destruct Hin as [Hin|Hin]; [discriminate Hin|]).
  exact Hin.
Qed.

(** ** The error-trapping wrappers *)

Section Trapping.

Context `{RT : Runtime}.

(** [set_failed] returns and leaves the status [failed] with the
    reason, provided that firing the hooks declared for [Failed] does
    not raise. *)
Lemma set_failed_returns (self : BaseAction) (reason : string)
    (w1 : World) :
  (forall w2, context w2 = context w1 -> store w2 = store w1 ->
              exists w3, __execute_lifecycle_hooks self LC_HOOK_FAILED
                           reason w2 = Returns tt w3) ->
  exists w2,
    set_failed self reason w1 = Returns tt w2 /\
    status_code_of self w2 = VStr "failed" /\
    status_reason_of self w2 = VStr reason.
Proof.
  intros Hh. change set_failed with (run_setter SetFailed).
  rewrite run_setter_eq. cbn [target hook_event].
  destruct (already self StatusCode.FAILED reason w1) eqn:Ha.
  - exists w1. unfold already in Ha. apply andb_true_iff in Ha as [Hc Hr].
    apply eq_str_true in Hc, Hr. auto.
  - unfold bind at 1, emit at 1. unfold bind at 1.
    set (w0 := mk_World (context w1) (store w1)
                 (trace w1 ++ [setter_log SetFailed reason])%list).
    destruct (Hh w0 eq_refl eq_refl) as [w3 Hw3].
    destruct (confined_execute_lifecycle_hooks self LC_HOOK_FAILED reason w0)
      as (Hc & _ & _).
    rewrite Hw3 in Hc |- *. subst w0. cbn [world_of context] in Hc.
    rewrite store_status_eq, Hc. eexists. split; [reflexivity|].
    match goal with
    | |- status_code_of _ ?w2 = _ /\ _ =>
        destruct (already_after_store self StatusCode.FAILED reason
                    w1 w2 eq_refl) as (Hcode & Hreason & _)
    end.
    now split.
Qed.

(** An exception of [Exception] that ends the [try] block is handed to
    the handler, and the logger identity is reset after it. *)
Lemma try_except_finally_trap (body : M unit) (handler : exn -> M unit)
    (w w1 w2 : World) (e : exn) :
  body w = Raises e w1 ->
  exc_is_Exception e = true ->
  handler e w1 = Returns tt w2 ->
  try_except_finally body handler (emit LogResetIdentity) w =
  Returns tt (mk_World (context w2) (store w2)
                (trace w2 ++ [LogResetIdentity])%list).
Proof.
  intros Hb He Hh. unfold try_except_finally. rewrite Hb, He, Hh.
  reflexivity.
Qed.

(** An exception outside [Exception] that ends the [try] block is not
    handed to the handler: it goes on once the logger identity is reset. *)
Lemma try_except_finally_pass (body : M unit) (handler : exn -> M unit)
    (w w1 : World) (e : exn) :
  body w = Raises e w1 ->
  exc_is_Exception e = false ->
  try_except_finally body handler (emit LogResetIdentity) w =
  Raises e (mk_World (context w1) (store w1)
              (trace w1 ++ [LogResetIdentity])%list).
Proof.
  intros Hb He. unfold try_except_finally. rewrite Hb, He. reflexivity.
Qed.

(** The [try] block of [execute] when the condition renders to [true],
    and the [try] block of [check]: the concrete action's methods, run
    after the logger identity is set. *)
Lemma execute_body_eq {CA : @ConcreteAction RT} (self : BaseAction)
    (w : World) (r : string) :
  render_string (VStr ("{{ " ++ condition self ++ " }}")) (context w)
    = inr r ->
  lower r = "true" ->
  (emit (LogSetIdentity (label self)) ;;;
   let* ctx := get_context_dict in
   let* condition_result :=
     lift (render_string (VStr ("{{ " ++ condition self ++ " }}")) ctx) in
   if lower condition_result =? "true" then
     _resolve self ;;;
     _execute self
   else
     set_skipped self
       ("Condition evaluated to '" ++ condition_result ++ "'")) w
  = (_resolve self ;;; _execute self)
      (mk_World (context w) (store w)
         (trace w ++ [LogSetIdentity (label self)])%list).
Proof.
  intros Hrender Hlower.
  unfold bind at 1, emit at 1. unfold bind at 1, get_context_dict.
  unfold bind at 1. cbn [context]. rewrite Hrender. cbn [lift ret].
  rewrite Hlower. reflexivity.
Qed.

Lemma check_body_eq {CA : @ConcreteAction RT} (self : BaseAction)
    (w : World) :
  (emit (LogSetIdentity (label self)) ;;;
   log_debug "Checking action for {}" [LVal (VStr (label self))] ;;;
   _resolve self ;;;
   _check self) w
  = (_resolve self ;;; _check self)
      (mk_World (context w) (store w)
         (trace w ++ [LogSetIdentity (label self);
                      Log Debug "Checking action for {}"
                        [LVal (VStr (label self))]])%list).
Proof.
  unfold bind at 1, emit at 1. unfold bind at 1, log_debug, emit at 1.
  cbn [context store trace]. rewrite <- app_assoc. reflexivity.
Qed.

(** C1 as the code has it. An exception that derives from [Exception]
    and is raised by the concrete action's [_resolve] or [_execute]
    during [execute] (the condition having rendered to [true]), or by its
    [_resolve] or [_check] during [check], is trapped: provided that
    firing the hooks declared for [Failed] does not itself raise, the
    call returns and leaves the status [failed] with the reason the
    handler builds. An exception that does not derive from [Exception] is
    not trapped: it leaves [execute] and [check] once the logger identity
    is reset, and the wrapper writes no status. The reason is never empty
    and is made of the name of the exception class, the last component of
    the file name and the line number of the traceback of the exception
    ([Unknown] and [-1] when it has no traceback), the text of the
    exception and the formatted traceback. *)
Theorem wrappers_trap_exceptions {CA : @ConcreteAction RT}
    (self : BaseAction) (w w1 : World) (e : exn) :
  (exc_is_Exception e = true ->
   (forall w2, context w2 = context w1 -> store w2 = store w1 ->
               exists w3, __execute_lifecycle_hooks self LC_HOOK_FAILED
                            (internal_error_reason e) w2 = Returns tt w3) ->
   ((exists r,
        render_string (VStr ("{{ " ++ condition self ++ " }}")) (context w)
          = inr r /\ lower r = "true") ->
    (_resolve self ;;; _execute self)
      (mk_World (context w) (store w)
         (trace w ++ [LogSetIdentity (label self)])%list) = Raises e w1 ->
    exists w',
      execute self w = Returns tt w' /\
      __get_status_code self w' = Returns (VStr "failed") w' /\
      __get_status_reason self w'
        = Returns (VStr (internal_error_reason e)) w') /\
   ((_resolve self ;;; _check self)
      (mk_World (context w) (store w)
         (trace w ++ [LogSetIdentity (label self);
                      Log Debug "Checking action for {}"
                        [LVal (VStr (label self))]])%list) = Raises e w1 ->
    exists w',
      check self w = Returns tt w' /\
      __get_status_code self w' = Returns (VStr "failed") w' /\
      __get_status_reason self w'
        = Returns (VStr (internal_error_reason e)) w')) /\
  (exc_is_Exception e = false ->
   ((exists r,
        render_string (VStr ("{{ " ++ condition self ++ " }}")) (context w)
          = inr r /\ lower r = "true") ->
    (_resolve self ;;; _execute self)
      (mk_World (context w) (store w)
         (trace w ++ [LogSetIdentity (label self)])%list) = Raises e w1 ->
    execute self w
    = Raises e (mk_World (context w1) (store w1)
                  (trace w1 ++ [LogResetIdentity])%list)) /\
   ((_resolve self ;;; _check self)
      (mk_World (context w) (store w)
         (trace w ++ [LogSetIdentity (label self);
                      Log Debug "Checking action for {}"
                        [LVal (VStr (label self))]])%list) = Raises e w1 ->
    check self w
    = Raises e (mk_World (context w1) (store w1)
                  (trace w1 ++ [LogResetIdentity])%list))) /\
  internal_error_reason e <> EmptyString /\
  (forall filename line,
      exc_traceback e = Some (filename, line) ->
      internal_error_reason e =
      "Internal error " ++ exc_class e ++ " in " ++ basename filename
        ++ " at " ++ str_of_int line ++ " - " ++ exc_str e ++ newline
        ++ "Traceback:" ++ newline ++ format_exception e) /\
  (exc_traceback e = None ->
   internal_error_reason e =
   "Internal error " ++ exc_class e ++ " in " ++ "Unknown"
     ++ " at " ++ str_of_int (-1) ++ " - " ++ exc_str e ++ newline
     ++ "Traceback:" ++ newline ++ format_exception e).
Proof.
  split; [|split; [|split; [|split]]].
  - intros He Hh.
    destruct (set_failed_returns self (internal_error_reason e) w1 Hh)
      as (w2 & Hsf & Hc & Hr).
    assert (Hstatus :
      __get_status_code self
        (mk_World (context w2) (store w2)
           (trace w2 ++ [LogResetIdentity])%list)
      = Returns (VStr "failed")
          (mk_World (context w2) (store w2)
             (trace w2 ++ [LogResetIdentity])%list) /\
      __get_status_reason self
        (mk_World (context w2) (store w2)
           (trace w2 ++ [LogResetIdentity])%list)
      = Returns (VStr (internal_error_reason e))
          (mk_World (context w2) (store w2)
             (trace w2 ++ [LogResetIdentity])%list)).
    { rewrite get_status_code_eq, get_status_reason_eq.
      unfold status_code_of, status_reason_of in *. cbn [context].
      now rewrite Hc, Hr. }
    split.
    + intros (r & Hrender & Hlower) Hbody.
      eexists. split; [|exact Hstatus].
      unfold execute.
      apply try_except_finally_trap with (e := e) (w1 := w1);
        [|exact He|exact Hsf].
      now rewrite (execute_body_eq self w r Hrender Hlower).
    + intros Hbody.
      eexists. split; [|exact Hstatus].
      unfold check.
      apply try_except_finally_trap with (e := e) (w1 := w1);
        [|exact He|exact Hsf].
      now rewrite check_body_eq.
  - intros He. split.
    + intros (r & Hrender & Hlower) Hbody. unfold execute.
      apply try_except_finally_pass; [|exact He].
      now rewrite (execute_body_eq self w r Hrender Hlower).
    + intros Hbody. unfold check.
      apply try_except_finally_pass; [|exact He].
      now rewrite check_body_eq.
  - unfold internal_error_reason.
    destruct (exc_traceback e) as [[filename line]|]; discriminate.
  - intros filename line Htb. unfold internal_error_reason.
    now rewrite Htb.
  - intros Htb. unfold internal_error_reason. now rewrite Htb.
Qed.

End Trapping.

Lemma wrappers_trap_exceptions_witness :
  (exc_is_Exception Demo.RuntimeError = true /\
   exists w' : World (RT := Demo.runtime None),
     execute (CA := Demo.RaisingAction Demo.RuntimeError)
       (BaseAction_init
          (Demo.definition "True"
             [Demo.status_hook "Failed" "a:b:c:d:e:f" "COMPONENT_FAILED"]
             false))
       (Demo.world0 None) = Returns tt w' /\
     __get_status_code
       (BaseAction_init
          (Demo.definition "True"
             [Demo.status_hook "Failed" "a:b:c:d:e:f" "COMPONENT_FAILED"]
             false))
       w' = Returns (VStr "failed") w') /\
  (exc_is_Exception Demo.KeyboardInterrupt = false /\
   check (RT := Demo.runtime None)
     (CA := Demo.RaisingAction Demo.KeyboardInterrupt)
     (BaseAction_init (Demo.definition "True" [] false)) (Demo.world0 None)
   = Raises Demo.KeyboardInterrupt
       (mk_World (RT := Demo.runtime None) ∅ []
          [LogSetIdentity "prn:demo:app:main:1:action/deploy";
           Log Debug "Checking action for {}"
             [LVal (VStr "prn:demo:app:main:1:action/deploy")];
           LogResetIdentity])) /\
  internal_error_reason (RT := Demo.runtime None) Demo.RuntimeError
  = "Internal error RuntimeError in action.py at 214 - image copy failed"
      ++ newline ++ "Traceback:" ++ newline
      ++ "Traceback (most recent call last): RuntimeError" /\
  internal_error_reason (RT := Demo.runtime_without_traceback)
    Demo.RuntimeError
  = "Internal error RuntimeError in Unknown at -1 - image copy failed"
      ++ newline ++ "Traceback:" ++ newline ++ "RuntimeError".
Proof.
  split; [|split; [|split]].
  - split; [reflexivity|].
    destruct (proj1 (proj1 (wrappers_trap_exceptions (RT := Demo.runtime None)
                (CA := Demo.RaisingAction Demo.RuntimeError)
                (BaseAction_init
                   (Demo.definition "True"
                      [Demo.status_hook "Failed" "a:b:c:d:e:f"
                         "COMPONENT_FAILED"]
                      false))
                (Demo.world0 None)
                (mk_World (RT := Demo.runtime None) ∅ []
                   [LogSetIdentity "prn:demo:app:main:1:action/deploy"])
                Demo.RuntimeError) eq_refl
                ltac:(intros w2 _ _; eexists; vm_compute; reflexivity))
              ltac:(exists "True"; split; reflexivity) eq_refl)
      as (w' & Hex & Hc & _).
    exists w'. split; [exact Hex|exact Hc].
  - split; [reflexivity|].
    exact (proj2 (proj1 (proj2 (wrappers_trap_exceptions
                   (RT := Demo.runtime None)
                   (CA := Demo.RaisingAction Demo.KeyboardInterrupt)
                   (BaseAction_init (Demo.definition "True" [] false))
                   (Demo.world0 None)
                   (mk_World (RT := Demo.runtime None) ∅ []
                      [LogSetIdentity "prn:demo:app:main:1:action/deploy";
                       Log Debug "Checking action for {}"
                         [LVal (VStr "prn:demo:app:main:1:action/deploy")]])
                   Demo.KeyboardInterrupt)) eq_refl) eq_refl).
  - exact (proj1 (proj2 (proj2 (proj2 (wrappers_trap_exceptions
                   (RT := Demo.runtime None)
                   (CA := Demo.RaisingAction Demo.RuntimeError)
                   (BaseAction_init (Demo.definition "True" [] false))
                   (Demo.world0 None) (Demo.world0 None)
                   Demo.RuntimeError))))
             "/app/core_execute/actionlib/action.py" 214%Z eq_refl).
  - exact (proj2 (proj2 (proj2 (proj2 (wrappers_trap_exceptions
                   (RT := Demo.runtime_without_traceback)
                   (CA := Demo.RaisingAction Demo.RuntimeError)
                   (BaseAction_init (Demo.definition "True" [] false))
                   (mk_World (RT := Demo.runtime_without_traceback) ∅ [] [])
                   (mk_World (RT := Demo.runtime_without_traceback) ∅ [] [])
                   Demo.RuntimeError))))
             eq_refl).
Defined.

(** C1 as stated fails, even for an exception that derives from
    [Exception]: when a hook declared for [Failed] has a type the
    dispatcher does not know, the [set_failed] of the handler raises, the
    status is never written, and that exception leaves [execute]. *)
Lemma wrappers_trap_exceptions_counterexample :
  ~ (forall (RT : Runtime) (CA : ConcreteAction) (self : BaseAction)
            (w w1 : World) (e : exn) (r : string),
        exc_is_Exception e = true ->
        render_string (VStr ("{{ " ++ condition self ++ " }}")) (context w)
          = inr r ->
        lower r = "true" ->
        (_resolve self ;;; _execute self)
          (mk_World (context w) (store w)
             (trace w ++ [LogSetIdentity (label self)])%list) = Raises e w1 ->
        exists w',
          execute self w = Returns tt w' /\
          __get_status_code self w' = Returns (VStr "failed") w').
Proof.
  intros H.
  destruct (H (Demo.runtime None) (Demo.RaisingAction Demo.RuntimeError)
              (BaseAction_init
                 (Demo.definition "True" [Demo.email_hook "Failed"] false))
              (Demo.world0 None)
              (mk_World (RT := Demo.runtime None) ∅ []
                 [LogSetIdentity "prn:demo:app:main:1:action/deploy"])
              Demo.RuntimeError "True" eq_refl eq_refl eq_refl eq_refl)
    as (w' & Hex & _).
  vm_compute in Hex. discriminate Hex.
Qed.

(** An exception outside [Exception] is not trapped either: it leaves
    [execute] once the logger identity has been reset. *)
Example execute_lets_interrupt_through :
  execute (RT := Demo.runtime None)
    (CA := Demo.RaisingAction Demo.KeyboardInterrupt)
    (BaseAction_init (Demo.definition "True" [] false)) (Demo.world0 None)
  = Raises Demo.KeyboardInterrupt
      (mk_World (RT := Demo.runtime None) ∅ []
         [LogSetIdentity "prn:demo:app:main:1:action/deploy";
          LogResetIdentity]).
Proof. vm_compute. reflexivity. Qed.

(** The scenario of the specification: a [Failed] status hook on a
    component identity and an internal error during [execute] give one
    update of the component and one of its build. *)
Example failed_hook_scenario :
  store (world_of
    (execute (RT := Demo.runtime None)
       (CA := Demo.RaisingAction Demo.RuntimeError)
       (BaseAction_init
          (Demo.definition "True"
             [Demo.status_hook "Failed" "a:b:c:d:e:f" "COMPONENT_FAILED"] false))
       (Demo.world0 None)))
  = [("a:b:c:d:e:f", "COMPONENT_FAILED"); ("a:b:c:d:e", "COMPONENT_FAILED")].
Proof. vm_compute. reflexivity. Qed.

(** ** The scenarios of the specification, run *)

(** An action without hooks fires nothing: the premise on the [Failed]
    hooks of the trapping theorem holds for it in every world. *)
Lemma execute_lifecycle_hooks_no_hook `{RT : Runtime} (self : BaseAction)
    (event reason : string) (w : World) :
  lifecycle_hooks self = [] ->
  __execute_lifecycle_hooks self event reason w = Returns tt w.
Proof.
  intros H. unfold __execute_lifecycle_hooks. rewrite H. reflexivity.
Qed.

(** An identity nested in the bundle of the event, or left at the root of
    a hook that has [Parameters], resolves to [None]. *)
Example nested_identity_is_not_found :
  __get_idenity_parameter "Failed"
    (Demo.nested_identity_hook "Failed" "a:b:c:d:e:f" "COMPONENT_FAILED")
  = inr VNone /\
  __get_idenity_parameter "Failed"
    (Demo.root_identity_hook "Failed" "a:b:c:d:e:f" "COMPONENT_FAILED")
  = inr VNone.
Proof. split; reflexivity. Qed.

(** A condition that renders to [False]: the action is complete with the
    reason that quotes the rendered text. *)
Example skipped_scenario :
  status_reason_of (BaseAction_init (Demo.definition "False" [] false))
    (world_of
       (execute (RT := Demo.runtime None) (CA := NoOpAction)
          (BaseAction_init (Demo.definition "False" [] false))
          (Demo.world0 None)))
  = VStr "Condition evaluated to 'False'".
Proof. vm_compute. reflexivity. Qed.

(** A no-op action whose condition is true ends complete. *)
Example no_op_scenario :
  status_code_of (BaseAction_init (Demo.definition "True" [] false))
    (world_of
       (execute (RT := Demo.runtime None) (CA := NoOpAction)
          (BaseAction_init (Demo.definition "True" [] false))
          (Demo.world0 None)))
  = VStr "complete".
Proof. vm_compute. reflexivity. Qed.

(** An action that overrides nothing fails with the reason of the
    [NotImplementedError]. *)
Example abstract_action_scenario :
  status_code_of (BaseAction_init (Demo.definition "True" [] false))
    (world_of
       (execute (RT := Demo.runtime None) (CA := AbstractAction)
          (BaseAction_init (Demo.definition "True" [] false))
          (Demo.world0 None)))
  = VStr "failed".
Proof. vm_compute. reflexivity. Qed.

(** * More of the engine *)

(** ** The blackboard: round trips and keys *)

Lemma append_assoc (a b c : string) : (a ++ b) ++ c = a ++ (b ++ c).
Proof.
  induction a as [|x a IH]; [reflexivity|].
  change (String x ((a ++ b) ++ c) = String x (a ++ (b ++ c))).
  f_equal. exact IH.
Qed.

Section Blackboard.

Context `{RT : Runtime}.

(** X1: [get_state] returns what the last [set_state] of the name wrote;
    an earlier value is overwritten silently. *)
Theorem set_state_get_state (self : BaseAction) (name : string)
    (v1 v2 : value) (w : World) :
  exists w',
    (set_state self name v1 ;;; set_state self name v2) w = Returns tt w' /\
    get_state self name w' = Returns v2 w'.
Proof.
  unfold set_state, get_state, bind. rewrite !set_context_eq.
  eexists. split; [reflexivity|].
  rewrite get_context_eq. cbn [context]. now rewrite lookup_insert_eq.
Qed.

(** X2: what [set_output] wrote is read back by [get_state] whether
    outputs are saved or not, and by [get_output] when they are;
    without an output namespace [get_output] still answers [None]. *)
Theorem set_output_read_back (self : BaseAction) (name : string)
    (v : value) (w : World) :
  exists w',
    set_output self name v w = Returns tt w' /\
    get_state self name w' = Returns v w' /\
    get_output self name w' =
      Returns (match output_namespace self with
               | Some _ => v
               | None => VNone
               end) w'.
Proof.
  unfold set_output, get_state, get_output.
  destruct (output_namespace self) as [ns|].
  - unfold bind, log_debug, emit. rewrite !set_context_eq.
    eexists. split; [reflexivity|].
    rewrite !get_context_eq. cbn [context]. rewrite lookup_insert_eq.
    split; [reflexivity|].
    destruct (decide (state_namespace self ++ "/" ++ name
                      = ns ++ "/" ++ name)) as [->|Hne].
    + now rewrite lookup_insert_eq.
    + rewrite lookup_insert_ne by exact Hne. now rewrite lookup_insert_eq.
  - unfold bind, ret. rewrite set_context_eq.
    eexists. split; [reflexivity|].
    rewrite get_context_eq. cbn [context]. now rewrite lookup_insert_eq.
Qed.

(** X3: [set_state] of one name leaves what [get_state] answers for
    every other name of the action as it was, a raised [KeyError]
    included. *)
Theorem set_state_other_name (self : BaseAction) (name name' : string)
    (v : value) (w : World) :
  name' <> name ->
  exists w',
    set_state self name v w = Returns tt w' /\
    get_state self name' w' =
      match get_state self name' w with
      | Returns x _ => Returns x w'
      | Raises e _ => Raises e w'
      end.
Proof.
  intros Hne. unfold set_state, get_state. rewrite set_context_eq.
  eexists. split; [reflexivity|].
  rewrite !get_context_eq. cbn [context].
  rewrite lookup_insert_ne.
  - now destruct (context w !! _).
  - intros H. apply append_inj_l in H. injection H as H.
    now apply Hne.
Qed.

(** X4: a key is the plain concatenation of namespace and name, so the
    pairs are not kept apart: a value written for the name [a/b] under a
    namespace is what a lookup of [b] under that namespace followed by
    [/a] finds. *)
Theorem context_key_is_concatenation (self : BaseAction)
    (prn a b : string) (v default : value) (w : World) :
  exists w',
    __set_context self prn (a ++ "/" ++ b) v w = Returns tt w' /\
    __get_context self (prn ++ "/" ++ a) b default w' = Returns v w'.
Proof.
  rewrite set_context_eq. eexists. split; [reflexivity|].
  rewrite get_context_eq. cbn [context].
  replace ((prn ++ "/" ++ a) ++ "/" ++ b) with (prn ++ "/" ++ a ++ "/" ++ b).
  - now rewrite lookup_insert_eq.
  - now rewrite !append_assoc.
Qed.

End Blackboard.

Lemma set_state_other_name_witness :
  "Region" <> "ImageId" /\
  exists w' : World (RT := Demo.runtime None),
    set_state (BaseAction_init (Demo.definition "True" [] false))
      "ImageId" (VStr "ami-1") (Demo.world0 None) = Returns tt w' /\
    get_state (BaseAction_init (Demo.definition "True" [] false))
      "Region" w' =
    match get_state (BaseAction_init (Demo.definition "True" [] false))
            "Region" (Demo.world0 None) with
    | Returns x _ => Returns x w'
    | Raises e _ => Raises e w'
    end.
Proof.
  split; [discriminate|].
  apply (set_state_other_name (RT := Demo.runtime None)). discriminate.
Defined.

(** ** The status state machine: what a setter leaves *)

Section SetterFacts.

Context `{RT : Runtime}.

Lemma run_setter_returns_status (s : setter) (self : BaseAction)
    (reason : string) (w w1 : World) :
  run_setter s self reason w = Returns tt w1 ->
  status_code_of self w1 = VStr (StatusCode.value (target s)) /\
  status_reason_of self w1 = VStr reason.
Proof.
  intros H. destruct (already self (target s) reason w) eqn:Ha.
  - rewrite run_setter_eq, Ha in H. injection H as <-.
    unfold already in Ha. apply andb_true_iff in Ha as [Hc Hr].
    now apply eq_str_true in Hc, Hr.
  - destruct (run_setter_changes s self reason w w1 Ha H) as [Hc _].
    destruct (already_after_store self (target s) reason w w1 Hc)
      as (? & ? & _).
    now split.
Qed.

(** X5: when a setter returns, the stored code read back is its target
    and the stored reason is the reason given, and no key of the context
    other than the two status keys of the action has changed. *)
Theorem setter_postcondition (s : setter) (self : BaseAction)
    (reason : string) (w w1 : World) :
  run_setter s self reason w = Returns tt w1 ->
  __get_status_code self w1
    = Returns (VStr (StatusCode.value (target s))) w1 /\
  __get_status_reason self w1 = Returns (VStr reason) w1 /\
  (forall k, k <> label self ++ "/" ++ STATUS_CODE ->
             k <> label self ++ "/" ++ STATUS_REASON ->
             context w1 !! k = context w !! k).
Proof.
  intros H.
  destruct (run_setter_returns_status s self reason w w1 H) as [Hc Hr].
  rewrite get_status_code_eq, get_status_reason_eq, Hc, Hr.
  split; [reflexivity|]. split; [reflexivity|].
  intros k Hk1 Hk2.
  destruct (already self (target s) reason w) eqn:Ha.
  - rewrite run_setter_eq, Ha in H. now injection H as <-.
  - destruct (run_setter_changes s self reason w w1 Ha H) as [Hctx _].
    rewrite Hctx. rewrite lookup_insert_ne by congruence.
    now rewrite lookup_insert_ne by congruence.
Qed.

(** X6: a setter that raises (a hook of an unknown type, a template that
    does not render, an interrupt of the tracking client) has written
    nothing: the hooks are fired before the status is stored, so the
    context is as it was before the call. *)
Theorem setter_raise_writes_nothing (s : setter) (self : BaseAction)
    (reason : string) (w w1 : World) (e : exn) :
  run_setter s self reason w = Raises e w1 ->
  context w1 = context w /\
  __get_status_code self w1 = Returns (status_code_of self w) w1.
Proof.
  rewrite run_setter_eq.
  destruct (already self (target s) reason w); [discriminate|].
  unfold bind at 1, emit at 1. unfold bind at 1.
  set (w0 := mk_World (context w) (store w)
               (trace w ++ [setter_log s reason])%list).
  destruct (confined_execute_lifecycle_hooks self (hook_event s) reason w0)
    as (Hc & _ & _).
  destruct (__execute_lifecycle_hooks self (hook_event s) reason w0)
    as [[] w2|e' w2] eqn:Eh.
  - rewrite store_status_eq. discriminate.
  - intros [= <- <-]. cbn [world_of] in Hc. subst w0. cbn [context] in Hc.
    split; [exact Hc|].
    rewrite get_status_code_eq. unfold status_code_of. now rewrite Hc.
Qed.


(** X8: the four predicates never raise and are decided by the stored
    code alone: at most one of them holds, and an action with no stored
    code is pending. *)
Theorem status_predicates_exclusive (self : BaseAction) (w : World) :
  exists bi bf br bc : bool,
    is_init self w = Returns bi w /\
    is_failed self w = Returns bf w /\
    is_running self w = Returns br w /\
    is_complete self w = Returns bc w /\
    (Nat.b2n bi + Nat.b2n bf + Nat.b2n br + Nat.b2n bc <= 1)%nat /\
    (context w !! (label self ++ "/" ++ STATUS_CODE) = None ->
     bi = true).
Proof.
  unfold is_init, is_failed, is_running, is_complete, bind.
  rewrite get_status_code_eq. unfold ret.
  do 4 eexists. repeat (split; [reflexivity|]).
  split.
  - destruct (status_code_of self w) as [| | |c| |]; cbn [eq_str Nat.b2n];
      try lia.
    cbn [StatusCode.value].
    destruct (c =? "pending") eqn:E1; [apply String.eqb_eq in E1; subst c; cbn; lia|].
    destruct (c =? "failed") eqn:E2; [apply String.eqb_eq in E2; subst c; cbn; lia|].
    destruct (c =? "running") eqn:E3; [apply String.eqb_eq in E3; subst c; cbn; lia|].
    destruct (c =? "complete"); cbn; lia.
  - intros H. unfold status_code_of. rewrite H. reflexivity.
Qed.

End SetterFacts.

Lemma setter_postcondition_witness :
  exists w1 : World (RT := Demo.runtime None),
    run_setter SetRunning
      (BaseAction_init
         (Demo.definition "True"
            [Demo.status_hook "Running" "a:b:c:d:e" "DEPLOY_IN_PROGRESS"] false))
      "copying snapshot" (Demo.world0 None) = Returns tt w1 /\
    __get_status_code
      (BaseAction_init
         (Demo.definition "True"
            [Demo.status_hook "Running" "a:b:c:d:e" "DEPLOY_IN_PROGRESS"] false))
      w1 = Returns (VStr "running") w1.
Proof.
  eexists. split; [vm_compute; reflexivity|].
  refine (proj1 (setter_postcondition (RT := Demo.runtime None) SetRunning _
                   "copying snapshot" (Demo.world0 None) _ _)).
  vm_compute. reflexivity.
Defined.

Lemma setter_raise_writes_nothing_witness :
  exists (w1 : World (RT := Demo.runtime None)) (e : exn),
    run_setter SetComplete
      (BaseAction_init
         (Demo.definition "True" [Demo.email_hook "Complete"] false))
      "done" (Demo.world0 None) = Raises e w1 /\
    context w1 = context (Demo.world0 None).
Proof.
  eexists. eexists. split; [vm_compute; reflexivity|].
  refine (proj1 (setter_raise_writes_nothing (RT := Demo.runtime None)
                   SetComplete
                   (BaseAction_init
                      (Demo.definition "True" [Demo.email_hook "Complete"]
                         false))
                   "done" (Demo.world0 None) _
                   (Exception (Msg "Unsupported hook type {}" [VStr "email"]))
                   _)).
  vm_compute. reflexivity.
Defined.


(** ** The dispatcher: which hooks fire, and in what order *)

Lemma filter_hook_fired_report (t : list event) :
  forallb is_report t = true -> List.filter is_hook_fired t = [].
Proof.
  induction t as [|ev t IH]; [reflexivity|]. cbn [forallb List.filter].
  rewrite andb_true_iff. intros [Hev Ht]. rewrite (IH Ht).
  now destruct ev.
Qed.

Lemma filter_update_app (t1 t2 : list event) :
  List.filter is_update (t1 ++ t2)
  = (List.filter is_update t1 ++ List.filter is_update t2)%list.
Proof. apply List.filter_app. Qed.

Section Dispatcher.

Context `{RT : Runtime}.

Lemma for_each_hook_order (self : BaseAction) (event reason : string)
    (hooks : list dict) (w w' : World) :
  for_each hooks (fun event_hook =>
    let* hook_type := lift (py_getitem (VDict event_hook) "Type") in
    __execute_lifecycle_hook self event hook_type event_hook reason) w
  = Returns tt w' ->
  exists t, trace w' = (trace w ++ t)%list /\
            List.filter is_hook_fired t = List.map (HookFired event) hooks /\
            Forall (fun h => dict_lookup "Type" h
                             = Some (VStr LC_TYPE_STATUS)) hooks.
Proof.
  revert w. induction hooks as [|h hooks IH]; intros w; cbn [for_each].
  - intros [= <-]. exists []. rewrite app_nil_r. auto.
  - unfold bind at 1.
    destruct (bind (lift (py_getitem (VDict h) "Type")) _ w)
      as [[] w1|e w1] eqn:Eh; [|discriminate].
    intros Hrest. destruct (IH w1 Hrest) as (t2 & Ht2 & Hf2 & Hty2).
    revert Eh. unfold bind at 1. cbn [py_getitem].
    destruct (dict_lookup "Type" h) as [hook_type|] eqn:Ety;
      [|discriminate]. cbn [lift ret].
    unfold __execute_lifecycle_hook, bind at 1, emit.
    destruct (eq_str hook_type LC_TYPE_STATUS) eqn:Es; [|discriminate].
    apply eq_str_true in Es. subst hook_type. intros Hs.
    destruct (confined_execute_status_hook self event h reason
                (mk_World (context w) (store w)
                   (trace w ++ [HookFired event h])%list))
      as (_ & (t1 & Ht1 & Hok1) & _).
    rewrite Hs in Ht1. cbn [world_of trace] in Ht1.
    exists ([HookFired event h] ++ t1 ++ t2)%list. split; [|split].
    + rewrite Ht2, Ht1, <- !app_assoc. reflexivity.
    + rewrite !List.filter_app, (filter_hook_fired_report t1 Hok1), Hf2.
      reflexivity.
    + constructor; assumption.
Qed.

(** X9: when the dispatch for an event returns, the hooks it fired are
    the hooks selected for the event, each once and in the order of their
    declaration; every one of them is a [status] hook; the context is as
    before. *)
Theorem hooks_fire_in_declaration_order (self : BaseAction)
    (event reason : string) (w w' : World) :
  __execute_lifecycle_hooks self event reason w = Returns tt w' ->
  exists hooks t,
    event_hooks event (lifecycle_hooks self) = inr hooks /\
    trace w' = (trace w ++ t)%list /\
    List.filter is_hook_fired t = List.map (HookFired event) hooks /\
    Forall (fun h => dict_lookup "Type" h = Some (VStr LC_TYPE_STATUS))
           hooks /\
    context w' = context w.
Proof.
  intros H.
  destruct (confined_execute_lifecycle_hooks self event reason w)
    as (Hc & _ & _).
  rewrite H in Hc. cbn [world_of] in Hc.
  revert H. unfold __execute_lifecycle_hooks, bind at 1.
  destruct (event_hooks event (lifecycle_hooks self)) as [e|hooks];
    [discriminate|]. cbn [lift ret]. intros H.
  destruct (for_each_hook_order _ _ _ _ _ _ H) as (t & Ht & Hf & Hty).
  exists hooks, t. auto.
Qed.

(** X10: when the first hook selected for an event has no [Type], the
    dispatch raises [KeyError] at once; when its type is not [status], it
    raises the exception of the unsupported type once the hook has been
    entered. Either way no later hook is fired and nothing reaches the
    tracking client. *)
Theorem first_hook_of_unknown_type_raises (self : BaseAction)
    (event reason : string) (w : World) (h : dict) (rest : list dict) :
  event_hooks event (lifecycle_hooks self) = inr (h :: rest) ->
  (dict_lookup "Type" h = None ->
   __execute_lifecycle_hooks self event reason w
   = Raises (KeyError (Msg "{}" [VStr "Type"])) w) /\
  (forall ty,
      dict_lookup "Type" h = Some ty ->
      eq_str ty LC_TYPE_STATUS = false ->
      __execute_lifecycle_hooks self event reason w
      = Raises (Exception (Msg "Unsupported hook type {}" [ty]))
          (mk_World (context w) (store w)
             (trace w ++ [HookFired event h])%list)).
Proof.
  intros Hh. split.
  - intros Hnone. unfold __execute_lifecycle_hooks, bind at 1. rewrite Hh.
    cbn [lift ret for_each]. unfold bind at 1 2. cbn [py_getitem].
    rewrite Hnone. reflexivity.
  - intros ty Hsome Hty. unfold __execute_lifecycle_hooks, bind at 1.
    rewrite Hh. cbn [lift ret for_each]. unfold bind at 1 2.
    cbn [py_getitem]. rewrite Hsome. cbn [lift ret].
    unfold __execute_lifecycle_hook, bind, emit. now rewrite Hty.
Qed.

End Dispatcher.

(** X11: when what every hook has under [States] is a list (or nothing),
    the selection never raises and keeps, in their order, exactly the
    hooks whose list holds the event; a hook without [States] is never
    selected. *)
Theorem event_hooks_selects_listeners (event : string) (hooks : list dict) :
  Forall (fun h => exists l, dict_get "States" (VList []) h = VList l)
         hooks ->
  event_hooks event hooks = inr (List.filter (listens_to event) hooks) /\
  (forall h, In h hooks -> dict_lookup "States" h = None ->
             ~ In h (List.filter (listens_to event) hooks)).
Proof.
  intros Hl. split.
  - induction Hl as [|h hooks [l Hh] _ IH]; [reflexivity|].
    cbn [event_hooks List.filter]. unfold listens_to at 1.
    rewrite Hh, IH. reflexivity.
  - intros h _ Hnone Hin. apply List.filter_In in Hin as [_ Hlis].
    unfold listens_to, dict_get in Hlis. rewrite Hnone in Hlis.
    discriminate Hlis.
Qed.

Lemma event_hooks_selects_listeners_witness :
  Forall (fun h => exists l, dict_get "States" (VList []) h = VList l)
    [Demo.status_hook "Failed" "a:b:c:d:e:f" "COMPONENT_FAILED";
     [("Type", VStr "status")];
     Demo.status_hook "Running" "a:b:c:d:e" "DEPLOY_IN_PROGRESS"] /\
  event_hooks "Running"
    [Demo.status_hook "Failed" "a:b:c:d:e:f" "COMPONENT_FAILED";
     [("Type", VStr "status")];
     Demo.status_hook "Running" "a:b:c:d:e" "DEPLOY_IN_PROGRESS"]
  = inr [Demo.status_hook "Running" "a:b:c:d:e" "DEPLOY_IN_PROGRESS"].
Proof.
  assert (H : Forall (fun h => exists l,
                        dict_get "States" (VList []) h = VList l)
                [Demo.status_hook "Failed" "a:b:c:d:e:f" "COMPONENT_FAILED";
                 [("Type", VStr "status")];
                 Demo.status_hook "Running" "a:b:c:d:e" "DEPLOY_IN_PROGRESS"]).
  { repeat constructor; eexists; reflexivity. }
  split; [exact H|].
  exact (proj1 (event_hooks_selects_listeners "Running" _ H)).
Defined.

Lemma hooks_fire_in_declaration_order_witness :
  exists w' : World (RT := Demo.runtime None),
    __execute_lifecycle_hooks
      (BaseAction_init
         (Demo.definition "True"
            [Demo.status_hook "Failed" "a:b:c:d:e:f" "COMPONENT_FAILED";
             Demo.status_hook "Failed" "a:b:c:d:e" "BUILD_FAILED"] false))
      "Failed" "image copy failed" (Demo.world0 None) = Returns tt w' /\
    context w' = context (Demo.world0 None).
Proof.
  eexists. split; [vm_compute; reflexivity|].
  destruct (hooks_fire_in_declaration_order (RT := Demo.runtime None)
              (BaseAction_init
                 (Demo.definition "True"
                    [Demo.status_hook "Failed" "a:b:c:d:e:f" "COMPONENT_FAILED";
                     Demo.status_hook "Failed" "a:b:c:d:e" "BUILD_FAILED"]
                    false))
              "Failed" "image copy failed" (Demo.world0 None) _
              ltac:(vm_compute; reflexivity))
    as (hooks & t & _ & _ & _ & _ & Hc).
  exact Hc.
Defined.

Lemma first_hook_of_unknown_type_raises_witness :
  event_hooks "Failed"
    (lifecycle_hooks
       (BaseAction_init
          (Demo.definition "True"
             [Demo.email_hook "Failed";
              Demo.status_hook "Failed" "a:b:c:d:e" "BUILD_FAILED"] false)))
  = inr [Demo.email_hook "Failed";
         Demo.status_hook "Failed" "a:b:c:d:e" "BUILD_FAILED"] /\
  __execute_lifecycle_hooks (RT := Demo.runtime None)
    (BaseAction_init
       (Demo.definition "True"
          [Demo.email_hook "Failed";
           Demo.status_hook "Failed" "a:b:c:d:e" "BUILD_FAILED"] false))
    "Failed" "image copy failed" (Demo.world0 None)
  = Raises (Exception (Msg "Unsupported hook type {}" [VStr "email"]))
      (mk_World (RT := Demo.runtime None) ∅ []
         [HookFired "Failed" (Demo.email_hook "Failed")]).
Proof.
  split; [reflexivity|].
  exact (proj2 (first_hook_of_unknown_type_raises (RT := Demo.runtime None)
                  (BaseAction_init
                     (Demo.definition "True"
                        [Demo.email_hook "Failed";
                         Demo.status_hook "Failed" "a:b:c:d:e" "BUILD_FAILED"]
                        false))
                  "Failed" "image copy failed" (Demo.world0 None)
                  (Demo.email_hook "Failed")
                  [Demo.status_hook "Failed" "a:b:c:d:e" "BUILD_FAILED"]
                  eq_refl)
          (VStr "email") eq_refl eq_refl).
Defined.

(** ** The status hook: what it needs and what it sends *)

Section StatusHook.

Context `{RT : Runtime}.

Lemma str_truthy_true (s : string) : s <> EmptyString -> str_truthy s = true.
Proof.
  intros H. unfold str_truthy. apply negb_true_iff.
  now apply String.eqb_neq.
Qed.

Ltac split_renderings :=
  repeat match goal with
         | |- context [truthy ?v] => destruct (truthy v)
         | |- context [render_string ?v ?c] => destruct (render_string v c)
         | |- context [str_truthy ?s] => destruct (str_truthy s)
         end.

(** X12: a hook whose status for the event, or whose identity, is
    missing or otherwise false pushes nothing to the tracking client:
    at most the one warning is logged (none when a template of the hook
    fails to render first, which raises). *)
Theorem status_hook_needs_status_and_identity (self : BaseAction)
    (event : string) (hook : dict) (reason : string) (w : World)
    (st msg ident det : value) :
  __get_status_parameter event hook = inr st ->
  __get_message_parameter event hook = inr msg ->
  __get_idenity_parameter event hook = inr ident ->
  __get_details_parameter event hook = inr det ->
  truthy st = false \/ truthy ident = false ->
  store (world_of (__execute_status_hook self event hook reason w))
    = store w /\
  exists t,
    trace (world_of (__execute_status_hook self event hook reason w))
      = (trace w ++ t)%list /\
    List.filter is_update t = [] /\
    (List.length t <= 1)%nat.
Proof.
  intros Hst Hmsg Hid Hdet Hfalse.
  unfold __execute_status_hook.
  unfold bind at 1; rewrite Hst; cbn [lift ret].
  unfold bind at 1; rewrite Hmsg; cbn [lift ret].
  unfold bind at 1; rewrite Hid; cbn [lift ret].
  unfold bind at 1; rewrite Hdet; cbn [lift ret].
  unfold render_if_truthy, bind, get_context_dict, log_warn, emit, lift,
    ret, raise.
  destruct Hfalse as [H|H]; rewrite H; cbv beta iota zeta;
    split_renderings;
    cbn [opt_truthy negb world_of store trace context];
    split_renderings;
    cbn [opt_truthy negb world_of store trace context];
    (split; [reflexivity|]);
    first [ exists []; rewrite app_nil_r; repeat split; cbn; lia
          | eexists [_]; repeat split; cbn; lia ].
Qed.

(** X13: a hook with a status and an identity sends to the adapter, as
    message, the reason of the transition when the hook has no message of
    its own, and its rendered message followed by [ - ] and the reason
    when it has one and the reason is not empty. *)
Theorem status_hook_message (self : BaseAction) (event : string)
    (hook : dict) (reason : string) (w : World)
    (st msg ident det : value) (s i : string) :
  __get_status_parameter event hook = inr st ->
  __get_message_parameter event hook = inr msg ->
  __get_idenity_parameter event hook = inr ident ->
  __get_details_parameter event hook = inr det ->
  truthy st = true -> render_string st (context w) = inr s ->
  s <> EmptyString ->
  truthy ident = true -> render_string ident (context w) = inr i ->
  i <> EmptyString ->
  (truthy msg = false ->
   __execute_status_hook self event hook reason w
   = __update_item_status self i s reason det w) /\
  (forall m,
      truthy msg = true -> render_string msg (context w) = inr m ->
      m <> EmptyString -> reason <> EmptyString ->
      __execute_status_hook self event hook reason w
      = __update_item_status self i s (m ++ " - " ++ reason) det w).
Proof.
  intros Hst Hmsg Hid Hdet Hts Hrs Hs Hti Hri Hi.
  apply str_truthy_true in Hs, Hi.
  split; [intros Htm|intros m Htm Hrm Hm Hr;
                     apply str_truthy_true in Hm, Hr];
    unfold __execute_status_hook;
    (unfold bind at 1; rewrite Hst; cbn [lift ret]);
    (unfold bind at 1; rewrite Hmsg; cbn [lift ret]);
    (unfold bind at 1; rewrite Hid; cbn [lift ret]);
    (unfold bind at 1; rewrite Hdet; cbn [lift ret]);
    unfold render_if_truthy, bind, get_context_dict, lift, ret;
    rewrite Hts, Hti, Htm; cbv beta iota;
    repeat (first [rewrite Hrs | rewrite Hri]; cbv beta iota);
    cbn [opt_truthy negb text default from_option id].
  - rewrite Hs, Hi. cbn [negb].
    destruct (str_truthy reason) eqn:Er; cbn [opt_truthy negb].
    + rewrite Er. reflexivity.
    + unfold str_truthy in Er. apply negb_false_iff, String.eqb_eq in Er.
      now subst reason.
  - rewrite Hrm. cbv beta iota.
    cbn [opt_truthy negb text default from_option id].
    rewrite Hs, Hi, Hr, Hm. cbn [negb opt_truthy].
    assert (Hc : str_truthy (m ++ " - " ++ reason) = true).
    { apply str_truthy_true. destruct m; [discriminate|discriminate]. }
    rewrite Hc. reflexivity.
Qed.

End StatusHook.

(** ** The adapter: builds, branches and other identities *)

Section Adapter.

Context `{RT : Runtime}.

Ltac adapter_steps :=
  unfold __update_item_status, try_except_finally, __update_item_status_try;
  cbv zeta;
  unfold call_update_status, call_update_item, log_warn, emit, bind, ret;
  cbv beta iota zeta; cbn [context store trace].

Ltac adapter_tail :=
  cbv beta iota zeta; cbn [world_of trace context store];
  rewrite <- ?app_assoc; cbn [app];
  eexists; split; [reflexivity|]; cbn; reflexivity.

(** X14: for an identity of exactly five sections (a build) whose new
    status is the release-in-progress marker, the adapter pushes the
    status to the build and, when that call returns, points the branch
    named by the first four sections to the build. *)
Theorem release_updates_branch_pointer (self : BaseAction)
    (identity message : string) (details : value) (w : World) (d1 : db) :
  List.length (split ":" identity) = 5%nat ->
  update_status identity RELEASE_IN_PROGRESS (Some message) (Some details)
    (store w) = (None, d1) ->
  exists t,
    trace (world_of
             (__update_item_status self identity RELEASE_IN_PROGRESS
                message details w))
    = (trace w ++
         [LogSetIdentity identity;
          UpdateStatus identity RELEASE_IN_PROGRESS (Some message)
            (Some details);
          UpdateItem (join ":" (firstn 4 (split ":" identity))) identity]
         ++ t)%list.
Proof.
  intros Hlen Hup.
  unfold __update_item_status, try_except_finally, __update_item_status_try.
  cbv zeta. rewrite (join_firstn_split ":" identity 5 Hlen), Hlen.
  rewrite String.eqb_refl. cbn [Nat.eqb].
  unfold call_update_status, call_update_item, log_warn, emit, bind, ret.
  cbv beta iota zeta. cbn [context store trace]. rewrite Hup.
  cbv beta iota zeta. cbn [context store trace].
  destruct (update_item (join ":" (firstn 4 (split ":" identity))) identity d1)
    as [[e|] d2]; [destruct (exc_is_Exception e)|];
    cbv beta iota zeta; cbn [world_of trace context store];
    rewrite <- ?app_assoc; cbn [app]; eexists; reflexivity.
Qed.

(** X15: an identity that has neither five nor six sections reaches
    nobody: the adapter returns having only set and reset the identity of
    the logger, whatever the status. *)
Theorem other_identities_push_nothing (self : BaseAction)
    (identity status message : string) (details : value) (w : World) :
  List.length (split ":" identity) <> 5%nat ->
  List.length (split ":" identity) <> 6%nat ->
  __update_item_status self identity status message details w
  = Returns tt (mk_World (context w) (store w)
                  (trace w ++ [LogSetIdentity identity; LogResetIdentity])%list).
Proof.
  intros H5 H6. adapter_steps.
  rewrite (proj2 (Nat.eqb_neq _ _) H5), (proj2 (Nat.eqb_neq _ _) H6).
  cbv beta iota zeta. cbn [context store trace].
  now rewrite <- app_assoc.
Qed.

(** X16: a build whose status is not the release marker, and a
    component whose status does not contain [_FAILED], get exactly one
    push: the status, message and details for the identity itself. *)
Theorem single_push (self : BaseAction)
    (identity status message : string) (details : value) (w : World) :
  (List.length (split ":" identity) = 5%nat /\
   status <> RELEASE_IN_PROGRESS) \/
  (List.length (split ":" identity) = 6%nat /\
   is_substring "_FAILED" status = false) ->
  exists t,
    trace (world_of
             (__update_item_status self identity status message details w))
    = (trace w ++ t)%list /\
    List.filter is_update t
    = [UpdateStatus identity status (Some message) (Some details)].
Proof.
  intros [[Hlen Hst]|[Hlen Hst]].
  - unfold __update_item_status, try_except_finally,
      __update_item_status_try. cbv zeta.
    rewrite (join_firstn_split ":" identity 5 Hlen), Hlen.
    rewrite (proj2 (String.eqb_neq _ _) Hst). cbn [Nat.eqb].
    unfold call_update_status, log_warn, emit, bind, ret.
    cbv beta iota zeta. cbn [context store trace].
    destruct (update_status identity status (Some message) (Some details)
                (store w)) as [[e|] d]; [destruct (exc_is_Exception e)|];
      adapter_tail.
  - unfold __update_item_status, try_except_finally,
      __update_item_status_try. cbv zeta.
    rewrite (join_firstn_split ":" identity 6 Hlen), Hlen, Hst.
    cbn [Nat.eqb].
    unfold call_update_status, log_warn, emit, bind, ret.
    cbv beta iota zeta. cbn [context store trace].
    destruct (update_status identity status (Some message) (Some details)
                (store w)) as [[e|] d]; [destruct (exc_is_Exception e)|];
      adapter_tail.
Qed.

End Adapter.

(** ** Sections of an identity *)

Lemma split_fields_length (sep : ascii) (s : string) :
  List.length (snd (split_fields sep s)) = count_char sep s.
Proof.
  induction s as [|c s IH]; [reflexivity|].
  cbn [split_fields count_char].
  destruct (split_fields sep s) as [h t]. cbn [snd] in IH.
  destruct (Ascii.eqb c sep); cbn [snd List.length]; lia.
Qed.

(** X17: an identity has one section more than it has separators: five
    sections are exactly four colons, six are exactly five; the empty
    string is one empty section. Joining the sections with the separator
    gives the identity back. *)
Theorem sections_count (sep : ascii) (s : string) :
  List.length (split sep s) = S (count_char sep s) /\
  join (String sep EmptyString) (split sep s) = s.
Proof.
  split; [|apply join_split].
  unfold split. pose proof (split_fields_length sep s) as H.
  destruct (split_fields sep s) as [h t]. cbn [snd] in H.
  cbn [List.length]. now rewrite H.
Qed.

(** ** The wrappers: identity scope, condition errors, success *)

Section Wrappers.

Context `{RT : Runtime}.

Lemma try_except_finally_last_event {A : Type} (body : M A)
    (handler : exn -> M A) (ev : event) (w : World) :
  exists t,
    trace (world_of (try_except_finally body handler (emit ev) w))
    = (t ++ [ev])%list.
Proof.
  unfold try_except_finally.
  destruct (body w) as [a w1|e w1].
  - unfold emit. cbn. now eexists.
  - destruct (exc_is_Exception e).
    + destruct (handler e w1) as [a w2|e' w2]; unfold emit; cbn;
        now eexists.
    + unfold emit. cbn. now eexists.
Qed.

(** X18: the identity of the logger is reset on every way out: whatever
    the concrete action does and however the call ends (returned,
    skipped, failed, or left by an exception), the last thing [execute],
    [check] and the adapter do is the reset. *)
Theorem logger_identity_always_reset {CA : @ConcreteAction RT}
    (self : BaseAction) (w : World) :
  (exists t, trace (world_of (execute self w))
             = (t ++ [LogResetIdentity])%list) /\
  (exists t, trace (world_of (check self w))
             = (t ++ [LogResetIdentity])%list) /\
  (forall identity status message details,
      exists t,
        trace (world_of
                 (__update_item_status self identity status message details w))
        = (t ++ [LogResetIdentity])%list).
Proof.
  split; [|split; [|intros identity status message details]];
    apply try_except_finally_last_event.
Qed.

(** Every setter returns when firing the hooks of its event does. *)
Lemma run_setter_total (s : setter) (self : BaseAction) (reason : string)
    (w1 : World) :
  (forall w2, context w2 = context w1 -> store w2 = store w1 ->
              exists w3, __execute_lifecycle_hooks self (hook_event s)
                           reason w2 = Returns tt w3) ->
  exists w2, run_setter s self reason w1 = Returns tt w2.
Proof.
  intros Hh. rewrite run_setter_eq.
  destruct (already self (target s) reason w1); [now eexists|].
  unfold bind at 1, emit at 1. unfold bind at 1.
  destruct (Hh (mk_World (context w1) (store w1)
                  (trace w1 ++ [setter_log s reason])%list) eq_refl eq_refl)
    as [w3 ->].
  rewrite store_status_eq. now eexists.
Qed.

(** X19: an error of the condition is an internal error of the action.
    When rendering the condition raises an exception of [Exception], the
    concrete action is not entered, and (firing the hooks of [Failed] not
    raising) [execute] returns with the status [failed] and the reason
    built from that exception. *)
Theorem condition_error_is_trapped (self : BaseAction) (w : World)
    (e : exn) :
  render_string (VStr ("{{ " ++ condition self ++ " }}")) (context w)
    = inl e ->
  exc_is_Exception e = true ->
  (forall w2, context w2 = context w -> store w2 = store w ->
              exists w3, __execute_lifecycle_hooks self LC_HOOK_FAILED
                           (internal_error_reason e) w2 = Returns tt w3) ->
  exists w',
    (forall CA : ConcreteAction, execute (CA := CA) self w = Returns tt w') /\
    __get_status_code self w' = Returns (VStr "failed") w' /\
    __get_status_reason self w'
      = Returns (VStr (internal_error_reason e)) w'.
Proof.
  intros Hr He Hh.
  set (w0 := mk_World (context w) (store w)
               (trace w ++ [LogSetIdentity (label self)])%list).
  destruct (set_failed_returns self (internal_error_reason e) w0 Hh)
    as (w2 & Hsf & Hc & Hre).
  exists (mk_World (context w2) (store w2) (trace w2 ++ [LogResetIdentity])%list).
  split; [|split].
  - intros CA. unfold execute.
    apply try_except_finally_trap with (e := e) (w1 := w0);
      [|exact He|exact Hsf].
    unfold bind at 1, emit at 1. unfold bind at 1, get_context_dict.
    unfold bind at 1. cbn [context]. rewrite Hr. reflexivity.
  - rewrite get_status_code_eq. unfold status_code_of in *. cbn [context].
    now rewrite Hc.
  - rewrite get_status_reason_eq. unfold status_reason_of in *.
    cbn [context]. now rewrite Hre.
Qed.

(** When the concrete action returns, the wrappers add the reset of the
    logger identity and nothing else. *)
Lemma wrappers_success_eq {CA : @ConcreteAction RT}
    (self : BaseAction) (w w1 : World) :
  (forall r,
      render_string (VStr ("{{ " ++ condition self ++ " }}")) (context w)
        = inr r ->
      lower r = "true" ->
      (_resolve self ;;; _execute self)
        (mk_World (context w) (store w)
           (trace w ++ [LogSetIdentity (label self)])%list) = Returns tt w1 ->
      execute self w =
      Returns tt (mk_World (context w1) (store w1)
                    (trace w1 ++ [LogResetIdentity])%list)) /\
  ((_resolve self ;;; _check self)
     (mk_World (context w) (store w)
        (trace w ++ [LogSetIdentity (label self);
                     Log Debug "Checking action for {}"
                       [LVal (VStr (label self))]])%list) = Returns tt w1 ->
   check self w =
   Returns tt (mk_World (context w1) (store w1)
                 (trace w1 ++ [LogResetIdentity])%list)).
Proof.
  split.
  - intros r Hr Hl Hbody. unfold execute, try_except_finally.
    unfold bind at 1, emit at 1. unfold bind at 1, get_context_dict.
    unfold bind at 1. cbn [context]. rewrite Hr. cbn [lift ret].
    rewrite Hl. cbn [String.eqb Ascii.eqb Bool.eqb]. rewrite Hbody.
    reflexivity.
  - intros Hbody. unfold check, try_except_finally.
    unfold bind at 1, emit at 1. unfold bind at 1, log_debug, emit at 1.
    cbn [context store trace]. rewrite <- app_assoc. cbn [app].
    rewrite Hbody. reflexivity.
Qed.

(** X20: the wrappers store no status of their own when the concrete
    action returns: the world after [execute] (the condition being true)
    or [check] is the world the concrete [_resolve] and [_execute], or
    [_check], left, with the identity of the logger reset; an action
    whose methods call no setter keeps the status it had. *)
Theorem wrappers_pass_success_through {CA : @ConcreteAction RT}
    (self : BaseAction) (w w1 : World) :
  (forall r,
      render_string (VStr ("{{ " ++ condition self ++ " }}")) (context w)
        = inr r ->
      lower r = "true" ->
      (_resolve self ;;; _execute self)
        (mk_World (context w) (store w)
           (trace w ++ [LogSetIdentity (label self)])%list) = Returns tt w1 ->
      exists w',
        execute self w = Returns tt w' /\
        context w' = context w1 /\ store w' = store w1 /\
        trace w' = (trace w1 ++ [LogResetIdentity])%list /\
        __get_status_code self w' = Returns (status_code_of self w1) w') /\
  ((_resolve self ;;; _check self)
     (mk_World (context w) (store w)
        (trace w ++ [LogSetIdentity (label self);
                     Log Debug "Checking action for {}"
                       [LVal (VStr (label self))]])%list) = Returns tt w1 ->
   exists w',
     check self w = Returns tt w' /\
     context w' = context w1 /\ store w' = store w1 /\
     trace w' = (trace w1 ++ [LogResetIdentity])%list /\
     __get_status_code self w' = Returns (status_code_of self w1) w').
Proof.
  split.
  - intros r Hr Hl Hbody. eexists. split.
    + exact (proj1 (wrappers_success_eq self w w1) r Hr Hl Hbody).
    + rewrite get_status_code_eq. auto.
  - intros Hbody. eexists. split.
    + exact (proj2 (wrappers_success_eq self w w1) Hbody).
    + rewrite get_status_code_eq. auto.
Qed.

(** X21: the no-op action. With a condition that renders to [true] its
    [execute], and in any case its [check], return with the status
    [complete] and the reason [No operation required], provided that
    firing the hooks of [Complete] does not raise. *)
Theorem no_op_completes (self : BaseAction) (w : World) :
  (forall w2, context w2 = context w -> store w2 = store w ->
              exists w3, __execute_lifecycle_hooks self LC_HOOK_COMPLETE
                           "No operation required" w2 = Returns tt w3) ->
  (forall r,
      render_string (VStr ("{{ " ++ condition self ++ " }}")) (context w)
        = inr r ->
      lower r = "true" ->
      exists w',
        execute (CA := NoOpAction) self w = Returns tt w' /\
        __get_status_code self w' = Returns (VStr "complete") w' /\
        __get_status_reason self w'
          = Returns (VStr "No operation required") w') /\
  (exists w',
      check (CA := NoOpAction) self w = Returns tt w' /\
      __get_status_code self w' = Returns (VStr "complete") w' /\
      __get_status_reason self w'
        = Returns (VStr "No operation required") w').
Proof.
  intros Hh.
  assert (Hset : forall w0, context w0 = context w -> store w0 = store w ->
            exists w1,
              set_complete self "No operation required" w0 = Returns tt w1 /\
              status_code_of self w1 = VStr "complete" /\
              status_reason_of self w1 = VStr "No operation required").
  { intros w0 Hc Hs.
    destruct (run_setter_total SetComplete self "No operation required" w0)
      as [w1 H1].
    { intros w2 Hc2 Hs2. apply Hh; congruence. }
    exists w1. split; [exact H1|].
    exact (run_setter_returns_status SetComplete self _ w0 w1 H1). }
  assert (Hread : forall w1 : World,
            status_code_of self w1 = VStr "complete" ->
            status_reason_of self w1 = VStr "No operation required" ->
            __get_status_code self
              (mk_World (context w1) (store w1)
                 (trace w1 ++ [LogResetIdentity])%list)
            = Returns (VStr "complete")
                (mk_World (context w1) (store w1)
                   (trace w1 ++ [LogResetIdentity])%list) /\
            __get_status_reason self
              (mk_World (context w1) (store w1)
                 (trace w1 ++ [LogResetIdentity])%list)
            = Returns (VStr "No operation required")
                (mk_World (context w1) (store w1)
                   (trace w1 ++ [LogResetIdentity])%list)).
  { intros w1 Hc Hr. rewrite get_status_code_eq, get_status_reason_eq.
    unfold status_code_of, status_reason_of in *. cbn [context].
    now rewrite Hc, Hr. }
  split.
  - intros r Hr Hl.
    destruct (Hset (mk_World (context w) (store w)
                      (trace w ++ [LogSetIdentity (label self)])%list)
                eq_refl eq_refl) as (w1 & H1 & Hc & Hre).
    eexists. split; [|exact (Hread w1 Hc Hre)].
    apply (proj1 (wrappers_success_eq (CA := NoOpAction)
                    self w w1) r Hr Hl).
    unfold bind. cbn [_resolve _execute NoOpAction ret]. exact H1.
  - destruct (Hset (mk_World (context w) (store w)
                      (trace w ++ [LogSetIdentity (label self);
                                   Log Debug "Checking action for {}"
                                     [LVal (VStr (label self))]])%list)
                eq_refl eq_refl) as (w1 & H1 & Hc & Hre).
    eexists. split; [|exact (Hread w1 Hc Hre)].
    apply (proj2 (wrappers_success_eq (CA := NoOpAction)
                    self w w1)).
    unfold bind. cbn [_resolve _check NoOpAction ret]. exact H1.
Qed.

End Wrappers.

(** ** [SetVariablesAction] *)

Section SetVariablesFacts.

Context `{RT : Runtime}.

Lemma set_variable_entry (self : BaseAction) (k : string) (v : value)
    (w : World) :
  exists w1 t,
    (set_output self k v ;;; set_state self k v) w = Returns tt w1 /\
    store w1 = store w /\
    trace w1 = (trace w ++ t)%list /\
    List.filter is_context_set t =
      (match output_namespace self with
       | Some ns => [ContextSet (ns ++ "/" ++ k) v]
       | None => []
       end ++
       [ContextSet (state_namespace self ++ "/" ++ k) v;
        ContextSet (state_namespace self ++ "/" ++ k) v])%list.
Proof.
  unfold set_output, set_state.
  destruct (output_namespace self) as [ns|].
  - unfold bind, log_debug, emit. rewrite !set_context_eq.
    cbn [context store trace]. eexists. eexists [_; _; _; _].
    split; [reflexivity|]. cbn [store trace]. split; [reflexivity|].
    split; [rewrite <- !app_assoc; reflexivity|]. reflexivity.
  - unfold bind, ret. rewrite !set_context_eq.
    cbn [context store trace]. eexists. eexists [_; _].
    split; [reflexivity|]. cbn [store trace]. split; [reflexivity|].
    split; [rewrite <- !app_assoc; reflexivity|]. reflexivity.
Qed.

Lemma set_variables_loop (self : BaseAction) (d : dict) (w : World) :
  exists w1 t,
    for_each d (fun entry =>
      set_output self (fst entry) (snd entry) ;;;
      set_state self (fst entry) (snd entry)) w = Returns tt w1 /\
    store w1 = store w /\
    trace w1 = (trace w ++ t)%list /\
    List.filter is_context_set t =
      flat_map (fun entry =>
        (match output_namespace self with
         | Some ns => [ContextSet (ns ++ "/" ++ fst entry) (snd entry)]
         | None => []
         end ++
         [ContextSet (state_namespace self ++ "/" ++ fst entry) (snd entry);
          ContextSet (state_namespace self ++ "/" ++ fst entry) (snd entry)])%list)
        d.
Proof.
  revert w. induction d as [|[k v] d IH]; intros w; cbn [for_each flat_map].
  - exists w, []. rewrite app_nil_r. repeat split.
  - destruct (set_variable_entry self k v w) as (w1 & t1 & H1 & Hs1 & Ht1 & Hf1).
    destruct (IH w1) as (w2 & t2 & H2 & Hs2 & Ht2 & Hf2).
    exists w2, (t1 ++ t2)%list. unfold bind at 1. cbn [fst snd].
    rewrite H1. split; [exact H2|]. split; [congruence|].
    split; [rewrite Ht2, Ht1, app_assoc; reflexivity|].
    rewrite List.filter_app, Hf1, Hf2. reflexivity.
Qed.

(** X22: [SetVariablesAction._execute] never returns. With variables it
    writes every one under the state namespace of the action, and under
    the output namespace too when outputs are saved, and then raises the
    [TypeError] of [set_complete()] called without a reason: the writes
    of the context are, variable by variable in the order of the
    dictionary, the key of the output namespace (when there is one) and
    then twice the key of the state namespace, once by [set_output] and
    once by [set_state]. Without variables it raises at once. *)
Theorem set_variables_execute_never_returns (variables : option dict)
    (self : BaseAction) (w : World) :
  exists e w',
    SetVariablesAction._execute variables self w = Raises e w' /\
    exc_is_Exception e = true /\
    store w' = store w /\
    match variables with
    | None => exc_class e = "AttributeError" /\ w' = w
    | Some d =>
        exc_class e = "TypeError" /\
        exists t,
          trace w' = (trace w ++ t)%list /\
          List.filter is_context_set t =
            flat_map (fun entry =>
              (match output_namespace self with
               | Some ns => [ContextSet (ns ++ "/" ++ fst entry) (snd entry)]
               | None => []
               end ++
               [ContextSet (state_namespace self ++ "/" ++ fst entry)
                  (snd entry);
                ContextSet (state_namespace self ++ "/" ++ fst entry)
                  (snd entry)])%list) d /\
          (forall k v, In (k, v) d ->
             In (ContextSet (state_namespace self ++ "/" ++ k) v) t /\
             forall ns, output_namespace self = Some ns ->
                        In (ContextSet (ns ++ "/" ++ k) v) t)
    end.
Proof.
  unfold SetVariablesAction._execute. destruct variables as [d|].
  - destruct (set_variables_loop self d w) as (w1 & t & H1 & Hs & Ht & Hf).
    unfold bind at 1. rewrite H1. eexists. exists w1.
    split; [reflexivity|]. split; [reflexivity|]. split; [exact Hs|].
    split; [reflexivity|]. exists t. split; [exact Ht|].
    split; [exact Hf|].
    intros k v Hin.
    assert (Hsub : forall ev,
              In ev (List.filter is_context_set t) -> In ev t)
      by (intros ev Hev; now apply List.filter_In in Hev).
    split; [|intros ns Hns]; apply Hsub; rewrite Hf; apply in_flat_map;
      exists (k, v); (split; [exact Hin|]); cbn [fst snd].
    + apply in_or_app. right. now left.
    + rewrite Hns. now left.
  - eexists. exists w. repeat split.
Qed.

(** X23: [SetVariablesAction._resolve] leaves the world alone and never
    adds, drops or reorders a variable, whether it returns or a template
    fails; when it returns, every value is the rendering of the value it
    replaces. *)
Theorem set_variables_resolve_keeps_keys (d : dict) (self : BaseAction)
    (w : World) :
  exists d' o,
    SetVariablesAction._resolve (Some d) self w = (Some d', o) /\
    world_of o = w /\
    List.map fst d' = List.map fst d /\
    (o = Returns tt w ->
     Forall2 (fun old new =>
                fst new = fst old /\
                exists s, render_string (snd old) (context w) = inr s /\
                          snd new = VStr s) d d').
Proof.
  unfold SetVariablesAction._resolve.
  assert (H : List.map fst (fst (SetVariablesAction.resolve_entries
                                   (context w) d)) = List.map fst d /\
              (snd (SetVariablesAction.resolve_entries (context w) d) = None ->
               Forall2 (fun old new =>
                          fst new = fst old /\
                          exists s, render_string (snd old) (context w) = inr s /\
                                    snd new = VStr s)
                 d (fst (SetVariablesAction.resolve_entries (context w) d)))).
  { induction d as [|[k v] d [IHk IHv]]; cbn [SetVariablesAction.resolve_entries].
    - split; [reflexivity|]. intros _. constructor.
    - destruct (render_string v (context w)) as [e|s] eqn:Er.
      + split; [reflexivity|]. discriminate.
      + destruct (SetVariablesAction.resolve_entries (context w) d)
          as [d'' r]. cbn [fst snd] in *. split.
        * cbn [List.map fst]. now rewrite IHk.
        * intros Hr. constructor; [|now apply IHv].
          split; [reflexivity|]. now exists s. }
  destruct (SetVariablesAction.resolve_entries (context w) d) as [d' [e|]];
    cbn [fst snd] in H; destruct H as [Hk Hv].
  - exists d'. eexists. split; [reflexivity|]. split; [reflexivity|].
    split; [exact Hk|]. discriminate.
  - exists d'. eexists. split; [reflexivity|]. split; [reflexivity|].
    split; [exact Hk|]. intros _. now apply Hv.
Qed.

End SetVariablesFacts.

(** ** Namespaces: what [__init__] derives from a label *)

Lemma count_char_app (c : ascii) (a b : string) :
  count_char c (a ++ b) = (count_char c a + count_char c b)%nat.
Proof.
  induction a as [|x a IH]; [reflexivity|].
  change (count_char c (String x (a ++ b))
          = (count_char c (String x a) + count_char c b)%nat).
  cbn [count_char]. rewrite IH. lia.
Qed.

Lemma append_nil_r (s : string) : s ++ EmptyString = s.
Proof.
  induction s as [|c s IH]; [reflexivity|].
  change (String c (s ++ EmptyString) = String c s). now rewrite IH.
Qed.

Lemma split_once_at_first (sep : ascii) (a b : string) :
  count_char sep a = 0%nat ->
  split_once sep (a ++ String sep b) = (a, Some b).
Proof.
  induction a as [|c a IH]; intros H.
  - change (split_once sep (String sep b) = (EmptyString, Some b)).
    cbn [split_once]. now rewrite Ascii.eqb_refl.
  - cbn [count_char] in H.
    change (split_once sep (String c (a ++ String sep b))
            = (String c a, Some b)).
    cbn [split_once]. destruct (Ascii.eqb c sep); [discriminate|].
    now rewrite IH by lia.
Qed.

Lemma split_once_without (sep : ascii) (s : string) :
  count_char sep s = 0%nat -> split_once sep s = (s, None).
Proof.
  induction s as [|c s IH]; intros H; [reflexivity|].
  cbn [count_char] in H. cbn [split_once].
  destruct (Ascii.eqb c sep); [discriminate|]. now rewrite IH by lia.
Qed.

Lemma prefix_self_app (p b : string) : String.prefix p (p ++ b) = true.
Proof.
  induction p as [|c p IH]; [now destruct b|].
  change (String.prefix (String c p) (String c (p ++ b)) = true).
  cbn [String.prefix]. now destruct (ascii_dec c c).
Qed.

Lemma prefix_app_cases (p x y : string) :
  String.prefix p (x ++ y) = true ->
  String.prefix p x = true \/
  exists p2, p = x ++ p2 /\ String.prefix p2 y = true.
Proof.
  revert x. induction p as [|a p IH]; intros x H.
  - left. now destruct x.
  - destruct x as [|b x].
    + right. now exists (String a p).
    + change (String.prefix (String a p) (String b (x ++ y)) = true) in H.
      cbn [String.prefix] in H |- *.
      destruct (ascii_dec a b) as [->|]; [|discriminate].
      destruct (IH x H) as [Hp|(p2 & -> & Hp2)].
      * now left.
      * right. now exists p2.
Qed.

Lemma prefix_app_l (p q s : string) :
  String.prefix (p ++ q) s = true -> String.prefix p s = true.
Proof.
  revert s. induction p as [|a p IH]; intros s H; [now destruct s|].
  destruct s as [|b s]; [discriminate|].
  change (String.prefix (String a (p ++ q)) (String b s) = true) in H.
  cbn [String.prefix] in H |- *.
  destruct (ascii_dec a b); [|discriminate]. now apply IH.
Qed.

Lemma is_substring_prefix (p s : string) :
  String.prefix p s = true -> is_substring p s = true.
Proof. intros H. destruct s; cbn [is_substring]; now rewrite H. Qed.

Lemma is_substring_app_l (p q s : string) :
  is_substring p s = false -> is_substring (p ++ q) s = false.
Proof.
  induction s as [|c s IH]; cbn [is_substring];
    rewrite !orb_false_iff; intros [H1 H2].
  - split; [|reflexivity].
    destruct (String.prefix (p ++ q) EmptyString) eqn:E; [|reflexivity].
    apply prefix_app_l in E. congruence.
  - split; [|now apply IH].
    destruct (String.prefix (p ++ q) (String c s)) eqn:E; [|reflexivity].
    apply prefix_app_l in E. congruence.
Qed.

Lemma is_substring_suffix (p a1 a2 : string) :
  is_substring p (a1 ++ a2) = false -> is_substring p a2 = false.
Proof.
  induction a1 as [|c a1 IH]; [easy|].
  change (is_substring p (String c (a1 ++ a2)) = false
          -> is_substring p a2 = false).
  cbn [is_substring]. rewrite orb_false_iff. intros [_ H]. now apply IH.
Qed.

(** An occurrence of a pattern whose first character does not come back
    in the pattern cannot start inside a text that has no occurrence and
    run over into a following occurrence. *)
Lemma no_crossing_occurrence (c0 : ascii) (t a2 b : string) :
  count_char c0 t = 0%nat ->
  a2 <> EmptyString ->
  is_substring (String c0 t) a2 = false ->
  String.prefix (String c0 t) (a2 ++ String c0 t ++ b) = false.
Proof.
  intros Hc Hne Hsub.
  destruct (String.prefix (String c0 t) (a2 ++ String c0 t ++ b)) eqn:E;
    [|reflexivity].
  destruct (prefix_app_cases _ _ _ E) as [Hp|(p2 & Hp & Hp2)].
  - apply is_substring_prefix in Hp. congruence.
  - destruct a2 as [|c a2]; [contradiction|].
    change (String c0 t = String c (a2 ++ p2)) in Hp.
    injection Hp as <- Ht.
    destruct p2 as [|c' p2].
    + rewrite append_nil_r in Ht. subst t.
      pose proof (prefix_self_app (String c0 a2) EmptyString) as Hs.
      rewrite append_nil_r in Hs. apply is_substring_prefix in Hs.
      congruence.
    + change (String.prefix (String c' p2) (String c0 (t ++ b)) = true)
        in Hp2.
      cbn [String.prefix] in Hp2.
      destruct (ascii_dec c' c0) as [->|]; [|discriminate].
      subst t. rewrite count_char_app in Hc. cbn [count_char] in Hc.
      rewrite Ascii.eqb_refl in Hc. lia.
Qed.

Lemma replace_go_skip (old new s1 s2 : string) :
  replace_go old new (String.length s1) (s1 ++ s2)
  = replace_go old new 0 s2.
Proof.
  induction s1 as [|c s1 IH]; [reflexivity|].
  change (replace_go old new (S (String.length s1)) (String c (s1 ++ s2))
          = replace_go old new 0 s2).
  cbn [replace_go]. exact IH.
Qed.

Lemma replace_go_match (c : ascii) (t new b : string) :
  replace_go (String c t) new 0 (String c t ++ b)
  = new ++ replace_go (String c t) new 0 b.
Proof.
  change (String c t ++ b) with (String c (t ++ b)).
  cbn [replace_go].
  change (String c (t ++ b)) with (String c t ++ b).
  rewrite prefix_self_app. cbn [String.length].
  replace (S (String.length t) - 1)%nat with (String.length t) by lia.
  now rewrite replace_go_skip.
Qed.

Lemma replace_go_scan (old new a rest : string) :
  (forall a1 a2, a = a1 ++ a2 -> a2 <> EmptyString ->
                 String.prefix old (a2 ++ rest) = false) ->
  replace_go old new 0 (a ++ rest) = a ++ replace_go old new 0 rest.
Proof.
  induction a as [|c a IH]; intros H; [reflexivity|].
  change (replace_go old new 0 (String c (a ++ rest))
          = String c (a ++ replace_go old new 0 rest)).
  cbn [replace_go].
  change (String c (a ++ rest)) with (String c a ++ rest).
  rewrite (H EmptyString (String c a) eq_refl) by discriminate.
  f_equal. apply IH. intros a1 a2 -> Hne.
  now apply (H (String c a1) a2).
Qed.

Lemma replace_go_without (old new s : string) :
  is_substring old s = false -> replace_go old new 0 s = s.
Proof.
  induction s as [|c s IH]; [reflexivity|].
  cbn [is_substring replace_go]. rewrite orb_false_iff. intros [-> H].
  now rewrite IH.
Qed.

(** Replacing the one occurrence of a pattern that neither comes back in
    itself after its first character nor occurs in the text around it. *)
Lemma replace_single_occurrence (c0 : ascii) (t new a b : string) :
  count_char c0 t = 0%nat ->
  is_substring (String c0 t) a = false ->
  is_substring (String c0 t) b = false ->
  replace (String c0 t) new (a ++ String c0 t ++ b) = a ++ new ++ b.
Proof.
  intros Hc Ha Hb. unfold replace.
  rewrite replace_go_scan.
  - now rewrite replace_go_match, replace_go_without.
  - intros a1 a2 -> Hne. apply no_crossing_occurrence; [exact Hc|exact Hne|].
    now apply is_substring_suffix in Ha.
Qed.

Section Namespaces.

Context `{RT : Runtime}.

(** X24: for a label of the form [<scope>:action/<name>], with no slash
    and no [:action] in the scope and no [:action/] in the name, the
    action is called by the name, its state namespace is
    [<scope>:var/<name>] and its output namespace, when outputs are
    saved, is [<scope>:output]; and no key of one of the three families
    (status under the label, state, output) is a key of another, so the
    helpers cannot overwrite the status. *)
Theorem namespaces_of_action_label (definition : ActionDefinition)
    (scope name : string) :
  Label definition = scope ++ ":action/" ++ name ->
  count_char "/" scope = 0%nat ->
  is_substring ":action" scope = false ->
  is_substring ":action/" name = false ->
  action_name (BaseAction_init definition) = name /\
  state_namespace (BaseAction_init definition) = scope ++ ":var/" ++ name /\
  output_namespace (BaseAction_init definition)
    = (if SaveOutputs definition then Some (scope ++ ":output") else None) /\
  (forall x y,
      label (BaseAction_init definition) ++ "/" ++ x
        <> state_namespace (BaseAction_init definition) ++ "/" ++ y /\
      label (BaseAction_init definition) ++ "/" ++ x
        <> (scope ++ ":output") ++ "/" ++ y /\
      state_namespace (BaseAction_init definition) ++ "/" ++ x
        <> (scope ++ ":output") ++ "/" ++ y).
Proof.
  intros Hl Hslash Hscope Hname.
  assert (Hsplit : split_once "/" (Label definition)
                   = (scope ++ ":action", Some name)).
  { rewrite Hl.
    replace (scope ++ ":action/" ++ name)
      with ((scope ++ ":action") ++ String "/" name)
      by (now rewrite append_assoc).
    apply split_once_at_first. rewrite count_char_app, Hslash. reflexivity. }
  assert (Hstate : replace ":action/" ":var/" (Label definition)
                   = scope ++ ":var/" ++ name).
  { rewrite Hl. apply (replace_single_occurrence ":" "action/");
      [reflexivity| |exact Hname].
    now apply (is_substring_app_l ":action" "/"). }
  assert (Hout : replace ":action" ":output" (scope ++ ":action")
                 = scope ++ ":output").
  { pose proof (replace_single_occurrence ":" "action" ":output" scope
                  EmptyString eq_refl Hscope eq_refl) as H.
    now rewrite !append_nil_r in H. }
  unfold BaseAction_init. cbn [action_name state_namespace output_namespace label].
  unfold split_once_last, split_once_first. rewrite Hsplit, Hstate.
  cbn [fst]. rewrite Hout.
  split; [reflexivity|]. split; [reflexivity|]. split; [reflexivity|].
  intros x y. rewrite Hl, !append_assoc.
  repeat split; intros H; apply append_inj_l in H; discriminate H.
Qed.

(** X25: a label without [:action/] is its own state namespace: the
    state variables of such an action share their keys with its status,
    and a [set_state] of [StatusCode] is what the status predicates read
    afterwards. *)
Theorem plain_label_shares_status_keys (definition : ActionDefinition) :
  is_substring ":action/" (Label definition) = false ->
  state_namespace (BaseAction_init definition)
    = label (BaseAction_init definition) /\
  forall (v : value) (w : World),
    exists w',
      set_state (BaseAction_init definition) STATUS_CODE v w
        = Returns tt w' /\
      __get_status_code (BaseAction_init definition) w' = Returns v w'.
Proof.
  intros H.
  assert (Hst : state_namespace (BaseAction_init definition)
                = label (BaseAction_init definition)).
  { unfold BaseAction_init. cbn [state_namespace label].
    unfold replace. now apply replace_go_without. }
  split; [exact Hst|]. intros v w.
  unfold set_state. rewrite Hst, set_context_eq.
  eexists. split; [reflexivity|].
  rewrite get_status_code_eq. unfold status_code_of. cbn [context].
  now rewrite lookup_insert_eq.
Qed.

(** X26: the name of an action is what follows the first slash of its
    label, and the whole label when it has no slash. *)
Theorem action_name_of_label (definition : ActionDefinition) :
  (forall a b, Label definition = a ++ "/" ++ b ->
               count_char "/" a = 0%nat ->
               action_name (BaseAction_init definition) = b) /\
  (count_char "/" (Label definition) = 0%nat ->
   action_name (BaseAction_init definition) = Label definition).
Proof.
  unfold BaseAction_init. cbn [action_name]. unfold split_once_last.
  split.
  - intros a b Hl Ha. rewrite Hl.
    change (a ++ "/" ++ b) with (a ++ String "/" b).
    now rewrite split_once_at_first.
  - intros H. now rewrite split_once_without.
Qed.

End Namespaces.

(** ** The properties above, at concrete actions *)

Lemma status_hook_needs_status_and_identity_witness :
  __get_status_parameter "Running"
    (Demo.status_hook "Failed" "a:b:c:d:e:f" "COMPONENT_FAILED") = inr VNone /\
  truthy VNone = false /\
  store (world_of
           (__execute_status_hook (RT := Demo.runtime None)
              (BaseAction_init (Demo.definition "True" [] false))
              "Running"
              (Demo.status_hook "Failed" "a:b:c:d:e:f" "COMPONENT_FAILED")
              "copying" (Demo.world0 None)))
  = store (Demo.world0 None).
Proof.
  split; [reflexivity|]. split; [reflexivity|].
  exact (proj1 (status_hook_needs_status_and_identity
                  (RT := Demo.runtime None)
                  (BaseAction_init (Demo.definition "True" [] false))
                  "Running"
                  (Demo.status_hook "Failed" "a:b:c:d:e:f" "COMPONENT_FAILED")
                  "copying" (Demo.world0 None)
                  VNone VNone (VStr "a:b:c:d:e:f") VNone
                  eq_refl eq_refl eq_refl eq_refl (or_introl eq_refl))).
Defined.

Lemma status_hook_message_witness :
  truthy (VStr "COMPONENT_FAILED") = true /\
  truthy (VStr "a:b:c:d:e:f") = true /\
  truthy VNone = false /\
  __execute_status_hook (RT := Demo.runtime None)
    (BaseAction_init (Demo.definition "True" [] false))
    "Failed" (Demo.status_hook "Failed" "a:b:c:d:e:f" "COMPONENT_FAILED")
    "image copy failed" (Demo.world0 None)
  = __update_item_status (RT := Demo.runtime None)
      (BaseAction_init (Demo.definition "True" [] false))
      "a:b:c:d:e:f" "COMPONENT_FAILED" "image copy failed" VNone
      (Demo.world0 None).
Proof.
  split; [reflexivity|]. split; [reflexivity|]. split; [reflexivity|].
  exact (proj1 (status_hook_message (RT := Demo.runtime None)
                  (BaseAction_init (Demo.definition "True" [] false))
                  "Failed"
                  (Demo.status_hook "Failed" "a:b:c:d:e:f" "COMPONENT_FAILED")
                  "image copy failed" (Demo.world0 None)
                  (VStr "COMPONENT_FAILED") VNone (VStr "a:b:c:d:e:f") VNone
                  "COMPONENT_FAILED" "a:b:c:d:e:f"
                  eq_refl eq_refl eq_refl eq_refl
                  eq_refl eq_refl ltac:(discriminate)
                  eq_refl eq_refl ltac:(discriminate))
          eq_refl).
Defined.

Lemma release_updates_branch_pointer_witness :
  List.length (split ":" "prn:demo:app:main:7") = 5%nat /\
  exists t,
    trace (world_of
             (__update_item_status (RT := Demo.runtime None)
                (BaseAction_init (Demo.definition "True" [] false))
                "prn:demo:app:main:7" "RELEASE_IN_PROGRESS" "releasing"
                VNone (Demo.world0 None)))
    = (trace (Demo.world0 None) ++
         [LogSetIdentity "prn:demo:app:main:7";
          UpdateStatus "prn:demo:app:main:7" "RELEASE_IN_PROGRESS"
            (Some "releasing") (Some VNone);
          UpdateItem (join ":" (firstn 4 (split ":" "prn:demo:app:main:7")))
            "prn:demo:app:main:7"]
         ++ t)%list.
Proof.
  split; [reflexivity|].
  exact (release_updates_branch_pointer (RT := Demo.runtime None)
           (BaseAction_init (Demo.definition "True" [] false))
           "prn:demo:app:main:7" "releasing" VNone (Demo.world0 None)
           [("prn:demo:app:main:7", "RELEASE_IN_PROGRESS")]
           eq_refl eq_refl).
Defined.

Lemma other_identities_push_nothing_witness :
  List.length (split ":" "prn:demo:app") <> 5%nat /\
  List.length (split ":" "prn:demo:app") <> 6%nat /\
  __update_item_status (RT := Demo.runtime None)
    (BaseAction_init (Demo.definition "True" [] false))
    "prn:demo:app" "DEPLOY_FAILED" "image copy failed" VNone
    (Demo.world0 None)
  = Returns tt
      (mk_World (RT := Demo.runtime None) ∅ []
         [LogSetIdentity "prn:demo:app"; LogResetIdentity]).
Proof.
  split; [discriminate|]. split; [discriminate|].
  apply (other_identities_push_nothing (RT := Demo.runtime None));
    discriminate.
Defined.

Lemma single_push_witness :
  (List.length (split ":" "a:b:c:d:e") = 5%nat /\
   "BUILD_FAILED" <> RELEASE_IN_PROGRESS (Runtime := Demo.runtime None)) /\
  exists t,
    trace (world_of
             (__update_item_status (RT := Demo.runtime None)
                (BaseAction_init (Demo.definition "True" [] false))
                "a:b:c:d:e" "BUILD_FAILED" "image copy failed" VNone
                (Demo.world0 None)))
    = (trace (Demo.world0 None) ++ t)%list /\
    List.filter is_update t
    = [UpdateStatus "a:b:c:d:e" "BUILD_FAILED" (Some "image copy failed")
         (Some VNone)].
Proof.
  assert (H : List.length (split ":" "a:b:c:d:e") = 5%nat /\
              "BUILD_FAILED"
                <> RELEASE_IN_PROGRESS (Runtime := Demo.runtime None))
    by (split; [reflexivity|discriminate]).
  split; [exact H|].
  exact (single_push (RT := Demo.runtime None)
           (BaseAction_init (Demo.definition "True" [] false))
           "a:b:c:d:e" "BUILD_FAILED" "image copy failed" VNone
           (Demo.world0 None) (or_introl H)).
Defined.

Lemma condition_error_is_trapped_witness :
  render_string (Runtime := Demo.runtime None)
    (VStr ("{{ " ++ condition
             (BaseAction_init (Demo.definition "{{ build" [] false))
             ++ " }}"))
    (context (Demo.world0 None))
  = inl (mk_exn "TemplateSyntaxError" true (Msg "{{ {{ build }}" [])) /\
  exists w' : World (RT := Demo.runtime None),
    (forall CA : ConcreteAction,
        execute (CA := CA)
          (BaseAction_init (Demo.definition "{{ build" [] false))
          (Demo.world0 None) = Returns tt w') /\
    __get_status_code
      (BaseAction_init (Demo.definition "{{ build" [] false)) w'
    = Returns (VStr "failed") w'.
Proof.
  split; [reflexivity|].
  destruct (condition_error_is_trapped (RT := Demo.runtime None)
              (BaseAction_init (Demo.definition "{{ build" [] false))
              (Demo.world0 None)
              (mk_exn "TemplateSyntaxError" true (Msg "{{ {{ build }}" []))
              eq_refl eq_refl
              ltac:(intros w2 _ _; eexists; reflexivity))
    as (w' & Hex & Hc & _).
  exists w'. split; [exact Hex|exact Hc].
Defined.

Lemma wrappers_pass_success_through_witness :
  render_string (Runtime := Demo.runtime None)
    (VStr ("{{ " ++ condition
             (BaseAction_init (Demo.definition "True" [] false)) ++ " }}"))
    (context (Demo.world0 None)) = inr "True" /\
  lower "True" = "true" /\
  exists w' : World (RT := Demo.runtime None),
    execute (CA := NoOpAction)
      (BaseAction_init (Demo.definition "True" [] false))
      (Demo.world0 None) = Returns tt w' /\
    __get_status_code (BaseAction_init (Demo.definition "True" [] false)) w'
    = Returns (VStr "complete") w'.
Proof.
  split; [reflexivity|]. split; [reflexivity|].
  pose (w1 := world_of
                (set_complete (RT := Demo.runtime None)
                   (BaseAction_init (Demo.definition "True" [] false))
                   "No operation required"
                   (mk_World (RT := Demo.runtime None) ∅ []
                      [LogSetIdentity "prn:demo:app:main:1:action/deploy"]))).
  assert (Hbody :
    (_resolve (ConcreteAction := NoOpAction)
       (BaseAction_init (Demo.definition "True" [] false)) ;;;
     _execute (ConcreteAction := NoOpAction)
       (BaseAction_init (Demo.definition "True" [] false)))
      (mk_World (RT := Demo.runtime None)
         (context (Demo.world0 None)) (store (Demo.world0 None))
         (trace (Demo.world0 None)
            ++ [LogSetIdentity
                  (label (BaseAction_init (Demo.definition "True" [] false)))])%list)
    = Returns tt w1) by (vm_compute; reflexivity).
  destruct (proj1 (wrappers_pass_success_through (RT := Demo.runtime None)
                     (CA := NoOpAction)
                     (BaseAction_init (Demo.definition "True" [] false))
                     (Demo.world0 None) w1)
              "True" eq_refl eq_refl Hbody)
    as (w' & Hex & _ & _ & _ & Hc).
  exists w'. split; [exact Hex|]. rewrite Hc. vm_compute. reflexivity.
Defined.

Lemma no_op_completes_witness :
  exists w' : World (RT := Demo.runtime None),
    check (CA := NoOpAction)
      (BaseAction_init
         (Demo.definition "False"
            [Demo.status_hook "Complete" "a:b:c:d:e" "DEPLOY_COMPLETE"] false))
      (Demo.world0 None) = Returns tt w' /\
    __get_status_code
      (BaseAction_init
         (Demo.definition "False"
            [Demo.status_hook "Complete" "a:b:c:d:e" "DEPLOY_COMPLETE"] false))
      w' = Returns (VStr "complete") w'.
Proof.
  destruct (proj2 (no_op_completes (RT := Demo.runtime None)
                     (BaseAction_init
                        (Demo.definition "False"
                           [Demo.status_hook "Complete" "a:b:c:d:e"
                              "DEPLOY_COMPLETE"] false))
                     (Demo.world0 None)
                     ltac:(intros w2 _ _; eexists; vm_compute; reflexivity)))
    as (w' & Hex & Hc & _).
  exists w'. split; [exact Hex|exact Hc].
Defined.

Lemma namespaces_of_action_label_witness :
  Label (Demo.definition "True" [] true)
    = "prn:demo:app:main:1" ++ ":action/" ++ "deploy" /\
  count_char "/" "prn:demo:app:main:1" = 0%nat /\
  is_substring ":action" "prn:demo:app:main:1" = false /\
  is_substring ":action/" "deploy" = false /\
  state_namespace (BaseAction_init (Demo.definition "True" [] true))
    = "prn:demo:app:main:1" ++ ":var/" ++ "deploy" /\
  output_namespace (BaseAction_init (Demo.definition "True" [] true))
    = Some ("prn:demo:app:main:1" ++ ":output").
Proof.
  split; [reflexivity|]. split; [reflexivity|]. split; [reflexivity|].
  split; [reflexivity|].
  destruct (namespaces_of_action_label (Demo.definition "True" [] true)
              "prn:demo:app:main:1" "deploy"
              eq_refl eq_refl eq_refl eq_refl)
    as (_ & Hs & Ho & _).
  split; [exact Hs|exact Ho].
Defined.

Lemma plain_label_shares_status_keys_witness :
  is_substring ":action/"
    (Label {| Label := "deploy"; Type_ := "SYSTEM::NoOp"; Condition := "True";
              Before := []; After := []; DependsOn := [];
              Params := VDict []; LifecycleHooks := [];
              SaveOutputs := false |}) = false /\
  exists w' : World (RT := Demo.runtime None),
    set_state
      (BaseAction_init
         {| Label := "deploy"; Type_ := "SYSTEM::NoOp"; Condition := "True";
            Before := []; After := []; DependsOn := [];
            Params := VDict []; LifecycleHooks := [];
            SaveOutputs := false |})
      STATUS_CODE (VStr "failed") (Demo.world0 None) = Returns tt w' /\
    __get_status_code
      (BaseAction_init
         {| Label := "deploy"; Type_ := "SYSTEM::NoOp"; Condition := "True";
            Before := []; After := []; DependsOn := [];
            Params := VDict []; LifecycleHooks := [];
            SaveOutputs := false |}) w'
    = Returns (VStr "failed") w'.
Proof.
  split; [reflexivity|].
  exact (proj2 (plain_label_shares_status_keys (RT := Demo.runtime None)
                  {| Label := "deploy"; Type_ := "SYSTEM::NoOp";
                     Condition := "True"; Before := []; After := [];
                     DependsOn := []; Params := VDict [];
                     LifecycleHooks := []; SaveOutputs := false |}
                  eq_refl)
          (VStr "failed") (Demo.world0 None)).
Defined.

Lemma action_name_of_label_witness :
  Label (Demo.definition "True" [] false)
    = "prn:demo:app:main:1:action" ++ "/" ++ "deploy" /\
  count_char "/" "prn:demo:app:main:1:action" = 0%nat /\
  action_name (BaseAction_init (Demo.definition "True" [] false)) = "deploy".
Proof.
  split; [reflexivity|]. split; [reflexivity|].
  exact (proj1 (action_name_of_label (Demo.definition "True" [] false))
           "prn:demo:app:main:1:action" "deploy" eq_refl eq_refl).
Defined.

(** X27: firing the hooks of an event never writes the context,
    whatever the hooks hold and however the dispatch ends: the context is
    the same afterwards and no context write is among the events. *)
Theorem dispatch_never_writes_context `{RT : Runtime} (self : BaseAction)
    (event reason : string) (w : World) :
  context (world_of (__execute_lifecycle_hooks self event reason w))
    = context w /\
  exists t,
    trace (world_of (__execute_lifecycle_hooks self event reason w))
      = (trace w ++ t)%list /\
    List.filter is_context_set t = [].
Proof.
  destruct (confined_execute_lifecycle_hooks self event reason w)
    as (Hc & (t & Ht & Hok) & _).
  split; [exact Hc|]. exists t. split; [exact Ht|].
  clear Ht. induction t as [|ev t IH]; [reflexivity|].
  cbn [forallb] in Hok. apply andb_true_iff in Hok as [Hev Hok].
  cbn [List.filter]. unfold is_not_write in Hev.
  apply negb_true_iff in Hev. rewrite Hev. now apply IH.
Qed.
